(** * spotify_np: the WeeChat "/np" script, embedded and verified

    A shallow embedding of [spotify.py]: the credential store
    ([save_refresh_token]), the OAuth token life cycle of [SpotifyClient]
    ([start_authentication], [exchange_code_for_token],
    [refresh_access_token], [get_current_track]), the formatter
    ([format_track_info]) and the command handler ([np_command_cb]).

    Modelling decisions, fixed once for the whole development:
    - Python values that come out of [json.load] / [response.json()] are the
      inductive [json]; [None] is [JNull]; a [dict] is an association list in
      insertion order.
    - JSON numbers are integers ([Z]), as Spotify sends them for
      [progress_ms], [duration_ms] and [expires_in]; the clock [time.time()]
      is read in the same unit.  Fractional numbers are not modelled.
    - A [str] is a Rocq [string] holding the UTF-8 bytes of the text.
    - A raised exception is the [Raise] outcome of [result]; the state
      reached when it is raised is kept, as in Python.
    - The network, the clock, the browser and the two files are the [world];
      every effect is appended to its [trace].  The credentials file is
      modelled by its bytes together with the JSON document [json.load]
      reads from them, and the cache file by its text; a file that is there
      can be written. *)

From Stdlib Require Import ZArith List String Ascii Bool Lia DecimalString.
Import ListNotations.

Set Warnings "-register-all".

Open Scope string_scope.
Open Scope Z_scope.

(** ** Python values *)

Inductive json : Type :=
| JNull
| JBool (b : bool)
| JNum (n : Z)
| JStr (s : string)
| JList (l : list json)
| JObj (d : list (string * json)).

Definition dict := list (string * json).

Inductive exn : Type :=
| KeyError (k : string)
| TypeError
| AttributeError
| JSONDecodeError
| RequestException
| OSError.

Inductive result (A : Type) : Type :=
| Ok (a : A)
| Raise (e : exn).

Arguments Ok {A} a.
Arguments Raise {A} e.

Definition rbind {A B} (r : result A) (k : A -> result B) : result B :=
  match r with
  | Ok a => k a
  | Raise e => Raise e
  end.

Declare Scope result_scope.
Delimit Scope result_scope with res.
Notation "'let?' x ':=' r 'in' k" := (rbind r (fun x => k))
  (at level 10, x name, r at level 100, k at level 200) : result_scope.
Open Scope result_scope.

(** [bool(v)]: the truth value Python gives a value in [if] and [not]. *)
Definition truthy (v : json) : bool :=
  match v with
  | JNull => false
  | JBool b => b
  | JNum n => negb (n =? 0)
  | JStr s => negb (String.eqb s "")
  | JList l => match l with [] => false | _ => true end
  | JObj d => match d with [] => false | _ => true end
  end.

(** *** dict operations *)

Fixpoint dict_get (d : dict) (k : string) : option json :=
  match d with
  | [] => None
  | (k', v) :: d' => if String.eqb k' k then Some v else dict_get d' k
  end.

Definition dict_mem (d : dict) (k : string) : bool :=
  match dict_get d k with Some _ => true | None => false end.

(** [d[k] = v]: an existing key keeps its position, a new key goes last. *)
Fixpoint dict_set (d : dict) (k : string) (v : json) : dict :=
  match d with
  | [] => [(k, v)]
  | (k', v') :: d' =>
      if String.eqb k' k then (k', v) :: d' else (k', v') :: dict_set d' k v
  end.

Definition dict_get_or (d : dict) (k : string) (dflt : json) : json :=
  match dict_get d k with Some v => v | None => dflt end.

(** [o.get(k, dflt)]: only a dict has the method. *)
Definition py_get (o : json) (k : string) (dflt : json) : result json :=
  match o with
  | JObj d => Ok (dict_get_or d k dflt)
  | _ => Raise AttributeError
  end.

(** [o[k]] with a [str] key. *)
Definition py_getitem (o : json) (k : string) : result json :=
  match o with
  | JObj d => match dict_get d k with Some v => Ok v | None => Raise (KeyError k) end
  | _ => Raise TypeError
  end.

Definition json_is_str (s : string) (v : json) : bool :=
  match v with
  | JStr s' => String.eqb s' s
  | _ => false
  end.

Fixpoint is_infix (sub s : string) : bool :=
  if prefix sub s then true
  else match s with
       | EmptyString => false
       | String _ s' => is_infix sub s'
       end.

(** [k in o] with a [str] key: key membership for a dict, element membership
    for a list, substring test for a str, [TypeError] otherwise. *)
Definition py_contains (k : string) (o : json) : result bool :=
  match o with
  | JObj d => Ok (dict_mem d k)
  | JList l => Ok (existsb (json_is_str k) l)
  | JStr s => Ok (is_infix k s)
  | _ => Raise TypeError
  end.

(** [o[k] = v] with a [str] key: only a dict accepts it. *)
Definition py_setitem (o : json) (k : string) (v : json) : result json :=
  match o with
  | JObj d => Ok (JObj (dict_set d k v))
  | _ => Raise TypeError
  end.

(** The elements a [for] loop over the value visits.  Iterating a str gives
    one-character strs (here: one per byte). *)
Definition py_iter (o : json) : result (list json) :=
  match o with
  | JList l => Ok l
  | JObj d => Ok (map (fun kv => JStr (fst kv)) d)
  | JStr s => Ok (map (fun c => JStr (String c "")) (list_ascii_of_string s))
  | _ => Raise TypeError
  end.

(** A value used as a number in arithmetic: [bool] is a subclass of [int]. *)
Definition as_int (v : json) : result Z :=
  match v with
  | JNum n => Ok n
  | JBool b => Ok (if b then 1 else 0)
  | _ => Raise TypeError
  end.

(** *** str(), repr() and format() *)

Definition py_str_int (n : Z) : string := NilZero.string_of_int (Z.to_int n).

Definition hex_digit (n : nat) : ascii :=
  match n with
  | 0 => "0" | 1 => "1" | 2 => "2" | 3 => "3" | 4 => "4" | 5 => "5" | 6 => "6"
  | 7 => "7" | 8 => "8" | 9 => "9" | 10 => "a" | 11 => "b" | 12 => "c"
  | 13 => "d" | 14 => "e" | _ => "f"
  end%nat%char.

Definition double_quote : ascii := ascii_of_nat 34.

Definition has_char (c : ascii) (s : string) : bool :=
  existsb (Ascii.eqb c) (list_ascii_of_string s).

(** [repr] of one character inside the quotes [q].  Bytes of a non-ASCII
    code point are kept as they are (Python keeps printable ones). *)
Definition repr_char (q c : ascii) : string :=
  let n := nat_of_ascii c in
  if (Ascii.eqb c q || Ascii.eqb c "\")%char then String "\" (String c "")
  else if (n =? 9)%nat then "\t"
  else if (n =? 10)%nat then "\n"
  else if (n =? 13)%nat then "\r"
  else if ((n <? 32) || (n =? 127))%nat then
    String "\" (String "x" (String (hex_digit (n / 16)) (String (hex_digit (n mod 16)) "")))
  else String c "".

Definition repr_str (s : string) : string :=
  let q := (if has_char "'" s && negb (has_char double_quote s) then double_quote else "'")%char in
  String q (concat "" (map (repr_char q) (list_ascii_of_string s)) ++ String q "").

Fixpoint py_repr (v : json) : string :=
  match v with
  | JNull => "None"
  | JBool b => if b then "True" else "False"
  | JNum n => py_str_int n
  | JStr s => repr_str s
  | JList l => "[" ++ concat ", " (map py_repr l) ++ "]"
  | JObj d =>
      "{" ++ concat ", " (map (fun kv => repr_str (fst kv) ++ ": " ++ py_repr (snd kv)) d) ++ "}"
  end.

(** [str(v)], which an f-string applies to a substituted value. *)
Definition py_str (v : json) : string :=
  match v with
  | JStr s => s
  | _ => py_repr v
  end.

(** [sep.join(items)]: every item has to be a str. *)
Fixpoint py_join (sep : string) (items : list json) : result string :=
  match items with
  | [] => Ok ""
  | JStr s :: rest =>
      match rest with
      | [] => Ok s
      | _ => let? t := py_join sep rest in Ok (s ++ sep ++ t)
      end
  | _ :: _ => Raise TypeError
  end.

Definition pad_zeros (width : nat) (s : string) : string :=
  concat "" (repeat "0" (width - String.length s)) ++ s.

(** [format(n, "02d")]: zero fill to width 2, the sign counted in the width. *)
Definition format_02d (n : Z) : string :=
  if n <? 0 then "-" ++ pad_zeros 1 (py_str_int (- n))
  else pad_zeros 2 (py_str_int n).

(** ** TrackFormatter *)

(** The text the source has in front of "Now playing": the musical-note sign
    as the file stores it, and a space. *)
Definition note_prefix : string := "ðŸŽµ ".

Definition ms_to_minutes_seconds (ms : json) : result string :=
  let? ms := as_int ms in
  let total_seconds := ms / 1000 in
  let minutes := total_seconds / 60 in
  let seconds := total_seconds mod 60 in
  Ok (py_str_int minutes ++ ":" ++ format_02d seconds).

(** [[artist["name"] for artist in xs]] *)
Fixpoint artist_names (xs : list json) : result (list json) :=
  match xs with
  | [] => Ok []
  | artist :: rest =>
      let? n := py_getitem artist "name" in
      let? ns := artist_names rest in
      Ok (n :: ns)
  end.

Definition format_track_info (track_data : json) : result (option string) :=
  if negb (truthy track_data) then Ok None else
  let? is_playing := py_get track_data "is_playing" (JBool true) in
  if negb (truthy is_playing) then Ok None else
  let? item := py_get track_data "item" (JObj []) in
  let? artist_list := py_get item "artists" (JList []) in
  let? artist_seq := py_iter artist_list in
  let? names := artist_names artist_seq in
  let? artists := py_join ", " names in
  let? track_name := py_get item "name" (JStr "Unknown Track") in
  let? album := py_get item "album" (JObj []) in
  let? album_name := py_get album "name" (JStr "Unknown Album") in
  let? external_urls := py_get item "external_urls" (JObj []) in
  let? url := py_get external_urls "spotify" (JStr "") in
  let url_text := if truthy url then "Listen: " ++ py_str url else "" in
  let? duration_ms := py_get item "duration_ms" (JNum 0) in
  let? progress_ms := py_get track_data "progress_ms" (JNum 0) in
  let? current_position := ms_to_minutes_seconds progress_ms in
  let? total_duration := ms_to_minutes_seconds duration_ms in
  Ok (Some (note_prefix ++ "Now playing: " ++ artists ++ " - " ++ py_str track_name
            ++ " | (from " ++ py_str album_name ++ ") | Progress: "
            ++ current_position ++ "/" ++ total_duration ++ " | " ++ url_text)).

(** ** The world around the script *)

(** What [response.text] and [response.json()] give: a body that is not JSON
    makes [response.json()] raise. *)
Inductive body : Type :=
| NotJson (text : string)
| Json (j : json).

Record response : Type := { status_code : Z; payload : body }.

(** [requests.post] / [requests.get] either return a response or raise. *)
Inductive outcome : Type :=
| Reply (r : response)
| Fails.

Inductive grant : Type :=
| AuthorizationCode (code : json)
| RefreshToken (token : json).

Inductive fname : Type :=
| StartAuthentication
| ExchangeCodeForToken
| RefreshAccessToken
| GetCurrentTrack.

Definition fname_eqb (f g : fname) : bool :=
  match f, g with
  | StartAuthentication, StartAuthentication
  | ExchangeCodeForToken, ExchangeCodeForToken
  | RefreshAccessToken, RefreshAccessToken
  | GetCurrentTrack, GetCurrentTrack => true
  | _, _ => false
  end.

(** The lines [debug_print] writes, one constructor per message of the source. *)
Inductive log_line : Type :=
| ErrorSavingRefreshToken (e : exn)
| PleaseVisit (client_id : json)
| AfterAuthorization
| CouldNotOpenBrowser
| SuccessfullyAuthenticated
| ErrorGettingToken (b : body)
| ErrorRefreshingToken (b : body)
| RefreshTokenInvalid
| ApiError (b : body)
| NetworkError (e : exn)
| CouldntGetCurrentTrack
| NoTrackPlaying
| ErrorInNpCommand (e : exn).

Inductive event : Type :=
| Called (f : fname)                             (* a method is entered *)
| Printed (l : log_line)                         (* debug_print *)
| Browser (client_id : json)                     (* webbrowser.open(auth_url) *)
| Posted (g : grant) (client_id client_secret : json) (* POST to the token endpoint *)
| Fetched (access_token : json)                  (* GET currently-playing, Bearer token *)
| Said (line : string).                          (* weechat.command(buffer, line) *)

(** The credentials file: it is missing, or its bytes are not JSON, or it
    holds the bytes [text] from which [json.load] reads the document [j]. *)
Inductive credentials_state : Type :=
| NoFile
| NotADocument
| Document (text : string) (j : json).

(** What [webbrowser.open] does with the address: it returns True when a
    browser took it, it returns False when no browser could be opened, or it
    raises. *)
Inductive browser_outcome : Type :=
| Opens
| OpensNothing
| BrowserRaises (e : exn).

Record world : Type := {
  clock : nat -> Z;             (* the successive readings of time.time() *)
  ticks : nat;                  (* readings taken so far *)
  network : nat -> outcome;     (* the outcome of the n-th HTTP request *)
  sent : nat;                   (* requests made so far *)
  browser : browser_outcome;
  credentials_file : credentials_state;
  cache_file : option string;
  trace : list event            (* oldest first *)
}.

Definition set_ticks (n : nat) (w : world) : world :=
  {| clock := clock w; ticks := n; network := network w; sent := sent w;
     browser := browser w; credentials_file := credentials_file w;
     cache_file := cache_file w; trace := trace w |}.

Definition set_sent (n : nat) (w : world) : world :=
  {| clock := clock w; ticks := ticks w; network := network w; sent := n;
     browser := browser w; credentials_file := credentials_file w;
     cache_file := cache_file w; trace := trace w |}.

Definition set_credentials_file (c : credentials_state) (w : world) : world :=
  {| clock := clock w; ticks := ticks w; network := network w; sent := sent w;
     browser := browser w; credentials_file := c;
     cache_file := cache_file w; trace := trace w |}.

Definition set_cache_file (c : option string) (w : world) : world :=
  {| clock := clock w; ticks := ticks w; network := network w; sent := sent w;
     browser := browser w; credentials_file := credentials_file w;
     cache_file := c; trace := trace w |}.

Definition set_trace (t : list event) (w : world) : world :=
  {| clock := clock w; ticks := ticks w; network := network w; sent := sent w;
     browser := browser w; credentials_file := credentials_file w;
     cache_file := cache_file w; trace := t |}.

(** ** Stateful code: state passing with exceptions *)

Definition M (S A : Type) : Type := S -> result A * S.

Definition ret {S A} (a : A) : M S A := fun s => (Ok a, s).

Definition raise {S A} (e : exn) : M S A := fun s => (Raise e, s).

Definition bind {S A B} (m : M S A) (k : A -> M S B) : M S B :=
  fun s => match m s with
           | (Ok a, s') => k a s'
           | (Raise e, s') => (Raise e, s')
           end.

(** [try: m  except Exception as e: h e] *)
Definition try_except {S A} (m : M S A) (h : exn -> M S A) : M S A :=
  fun s => match m s with
           | (Ok a, s') => (Ok a, s')
           | (Raise e, s') => h e s'
           end.

Definition lift_result {S A} (r : result A) : M S A := fun s => (r, s).

Declare Scope monad_scope.
Delimit Scope monad_scope with monad.
Notation "x <- m ;; k" := (bind m (fun x => k))
  (at level 61, m at next level, right associativity) : monad_scope.
Notation "m ;; k" := (bind m (fun _ => k))
  (at level 61, right associativity) : monad_scope.
Open Scope monad_scope.

(** *** Effects on the world *)

Definition emit (e : event) : M world unit :=
  fun w => (Ok tt, set_trace (trace w ++ [e]) w).

Definition debug_print (l : log_line) : M world unit := emit (Printed l).

Definition time_time : M world Z :=
  fun w => (Ok (clock w (ticks w)), set_ticks (S (ticks w)) w).

(** One HTTP request: it is recorded, then the network answers or fails. *)
Definition request (e : event) : M world response :=
  emit e ;;
  fun w => match network w (sent w) with
           | Reply r => (Ok r, set_sent (S (sent w)) w)
           | Fails => (Raise RequestException, set_sent (S (sent w)) w)
           end.

Definition response_json (r : response) : result json :=
  match payload r with
  | Json j => Ok j
  | NotJson _ => Raise JSONDecodeError
  end.

(** [webbrowser.open(auth_url)], with the value it returns. *)
Definition webbrowser_open (client_id : json) : M world bool :=
  emit (Browser client_id) ;;
  fun w => match browser w with
           | Opens => (Ok true, w)
           | OpensNothing => (Ok false, w)
           | BrowserRaises e => (Raise e, w)
           end.

(** ** CredentialStore *)

(** *** The text [json.dump] writes *)

(** [json.dump(obj, f)] with its defaults: the separators are ", " and
    ": ", and [ensure_ascii] writes every character outside the printable
    ASCII range as an escape. *)

Definition u_escape (n : N) : string :=
  String "\" (String "u"
    (String (hex_digit (N.to_nat (n / 4096)))
       (String (hex_digit (N.to_nat ((n / 256) mod 16)))
          (String (hex_digit (N.to_nat ((n / 16) mod 16)))
             (String (hex_digit (N.to_nat (n mod 16))) ""))))).

(** A code point above the basic plane is written as a surrogate pair. *)
Definition escape_code_point (cp : N) : string :=
  (if cp <? 65536 then u_escape cp
   else u_escape (55296 + (cp - 65536) / 1024) ++ u_escape (56320 + (cp - 65536) mod 1024))%N.

Definition escape_ascii_char (a : ascii) : string :=
  let n := nat_of_ascii a in
  if Ascii.eqb a double_quote then String "\" (String double_quote "")
  else if Ascii.eqb a "\"%char then "\\"
  else if (n =? 8)%nat then "\b"
  else if (n =? 9)%nat then "\t"
  else if (n =? 10)%nat then "\n"
  else if (n =? 12)%nat then "\f"
  else if (n =? 13)%nat then "\r"
  else if ((n <? 32) || (n =? 127))%nat then u_escape (N.of_nat n)
  else String a "".

(** The payload of a continuation byte of UTF-8. *)
Definition continuation (a : ascii) : option N :=
  let n := N_of_ascii a in
  (if (128 <=? n) && (n <? 192) then Some (n - 128) else None)%N.

(** The characters of a str between the quotes.  The bytes are decoded as
    UTF-8; a byte that is part of no character, which a str does not hold,
    is copied. *)
Fixpoint encode_basestring_ascii (s : string) : string :=
  match s with
  | EmptyString => ""
  | String a rest =>
      let n := N_of_ascii a in
      let copied := String a (encode_basestring_ascii rest) in
      if (n <? 128)%N then escape_ascii_char a ++ encode_basestring_ascii rest
      else
        match rest with
        | String b rest1 =>
            match continuation b with
            | Some x1 =>
                if ((192 <=? n) && (n <? 224))%N then
                  escape_code_point ((n - 192) * 64 + x1) ++ encode_basestring_ascii rest1
                else
                  match rest1 with
                  | String c rest2 =>
                      match continuation c with
                      | Some x2 =>
                          if ((224 <=? n) && (n <? 240))%N then
                            escape_code_point ((n - 224) * 4096 + x1 * 64 + x2)
                            ++ encode_basestring_ascii rest2
                          else
                            match rest2 with
                            | String d rest3 =>
                                match continuation d with
                                | Some x3 =>
                                    if ((240 <=? n) && (n <? 248))%N then
                                      escape_code_point
                                        ((n - 240) * 262144 + x1 * 4096 + x2 * 64 + x3)
                                      ++ encode_basestring_ascii rest3
                                    else copied
                                | None => copied
                                end
                            | EmptyString => copied
                            end
                      | None => copied
                      end
                  | EmptyString => copied
                  end
            | None => copied
            end
        | EmptyString => copied
        end
  end.

Definition dumps_str (s : string) : string :=
  String double_quote (encode_basestring_ascii s ++ String double_quote "").

Fixpoint json_dumps (v : json) : string :=
  match v with
  | JNull => "null"
  | JBool b => if b then "true" else "false"
  | JNum n => py_str_int n
  | JStr s => dumps_str s
  | JList l => "[" ++ concat ", " (map json_dumps l) ++ "]"
  | JObj d =>
      "{" ++ concat ", " (map (fun kv => dumps_str (fst kv) ++ ": " ++ json_dumps (snd kv)) d)
      ++ "}"
  end.


(** A file as [json.dump] leaves it: [json.load] reads back the document
    that was written. *)
Definition dumped (j : json) : credentials_state := Document (json_dumps j) j.

(** *** The two files *)

(** [with open(CREDENTIALS_PATH, 'r+') as f: credentials = json.load(f)] *)
Definition load_credentials_file : M world json :=
  fun w => match credentials_file w with
           | NoFile => (Raise OSError, w)
           | NotADocument => (Raise JSONDecodeError, w)
           | Document _ j => (Ok j, w)
           end.

(** [f.seek(0); json.dump(credentials, f); f.truncate()]: the file holds
    what [json.dump] writes, and nothing after it. *)
Definition dump_credentials_file (credentials : json) : M world unit :=
  fun w => (Ok tt, set_credentials_file (dumped credentials) w).

(** [with open(CACHE_PATH, 'w') as f: f.write(token)]: opening empties the
    file, and [write] takes a str only. *)
Definition write_cache_file (token : json) : M world unit :=
  fun w =>
    let w' := set_cache_file (Some "") w in
    match token with
    | JStr t => (Ok tt, set_cache_file (Some t) w')
    | _ => (Raise TypeError, w')
    end.

Definition save_refresh_token (token : json) : M world unit :=
  try_except
    (credentials <- load_credentials_file ;;
     has_field <- lift_result (py_contains "refresh_token" credentials) ;;
     (if has_field : bool then
        credentials' <- lift_result (py_setitem credentials "refresh_token" token) ;;
        dump_credentials_file credentials'
      else ret tt) ;;
     write_cache_file token)
    (fun e => debug_print (ErrorSavingRefreshToken e)).

(** ** TokenManager: class SpotifyClient *)

Record client : Type := {
  client_id : json;
  client_secret : json;
  refresh_token : json;
  access_token : json;          (* None is JNull *)
  expires_at : Z
}.

(** [__init__] after [load_credentials] returned the three values. *)
Definition new_client (cid csecret rtoken : json) : client :=
  {| client_id := cid; client_secret := csecret; refresh_token := rtoken;
     access_token := JNull; expires_at := 0 |}.

Definition state : Type := client * world.

Definition in_world {A} (m : M world A) : M state A :=
  fun s => let (r, w') := m (snd s) in (r, (fst s, w')).

Definition self_get {A} (f : client -> A) : M state A :=
  fun s => (Ok (f (fst s)), s).

Definition set_access_token (v : json) : M state unit :=
  fun s => let c := fst s in
    (Ok tt, ({| client_id := client_id c; client_secret := client_secret c;
                refresh_token := refresh_token c; access_token := v;
                expires_at := expires_at c |}, snd s)).

Definition set_refresh_token (v : json) : M state unit :=
  fun s => let c := fst s in
    (Ok tt, ({| client_id := client_id c; client_secret := client_secret c;
                refresh_token := v; access_token := access_token c;
                expires_at := expires_at c |}, snd s)).

Definition set_expires_at (t : Z) : M state unit :=
  fun s => let c := fst s in
    (Ok tt, ({| client_id := client_id c; client_secret := client_secret c;
                refresh_token := refresh_token c; access_token := access_token c;
                expires_at := t |}, snd s)).

Definition requests_post (g : grant) : M state response :=
  cid <- self_get client_id ;;
  csecret <- self_get client_secret ;;
  in_world (request (Posted g cid csecret)).

(** The value of [webbrowser.open] is dropped, and the bare [except]
    catches whatever the call raises. *)
Definition start_authentication : M state unit :=
  in_world (emit (Called StartAuthentication)) ;;
  cid <- self_get client_id ;;
  in_world (debug_print (PleaseVisit cid)) ;;
  in_world (debug_print AfterAuthorization) ;;
  in_world (try_except (webbrowser_open cid ;; ret tt)
                       (fun _ => debug_print CouldNotOpenBrowser)).

Definition exchange_code_for_token (code : json) : M state bool :=
  in_world (emit (Called ExchangeCodeForToken)) ;;
  response <- requests_post (AuthorizationCode code) ;;
  if status_code response =? 200 then
    data <- lift_result (response_json response) ;;
    tok <- lift_result (py_getitem data "access_token") ;;
    set_access_token tok ;;
    rtok <- lift_result (py_getitem data "refresh_token") ;;
    set_refresh_token rtok ;;
    now <- in_world time_time ;;
    expires_in <- lift_result (py_getitem data "expires_in") ;;
    delta <- lift_result (as_int expires_in) ;;
    set_expires_at (now + delta) ;;
    rtok' <- self_get refresh_token ;;
    in_world (save_refresh_token rtok') ;;
    in_world (debug_print SuccessfullyAuthenticated) ;;
    ret true
  else
    in_world (debug_print (ErrorGettingToken (payload response))) ;;
    ret false.

Definition refresh_access_token : M state bool :=
  in_world (emit (Called RefreshAccessToken)) ;;
  rtok <- self_get refresh_token ;;
  response <- requests_post (RefreshToken rtok) ;;
  if status_code response =? 200 then
    data <- lift_result (response_json response) ;;
    tok <- lift_result (py_getitem data "access_token") ;;
    set_access_token tok ;;
    now <- in_world time_time ;;
    expires_in <- lift_result (py_getitem data "expires_in") ;;
    delta <- lift_result (as_int expires_in) ;;
    set_expires_at (now + delta) ;;
    has_new <- lift_result (py_contains "refresh_token" data) ;;
    (if has_new : bool then
       rtok' <- lift_result (py_getitem data "refresh_token") ;;
       set_refresh_token rtok' ;;
       in_world (save_refresh_token rtok')
     else ret tt) ;;
    ret true
  else
    in_world (debug_print (ErrorRefreshingToken (payload response))) ;;
    err_body <- lift_result (response_json response) ;;
    err <- lift_result (py_get err_body "error" JNull) ;;
    (if json_is_str "invalid_grant" err then
       in_world (debug_print RefreshTokenInvalid) ;;
       start_authentication
     else ret tt) ;;
    ret false.

(** The part of [get_current_track] after the token check. *)
Definition fetch_current_track : M state json :=
  tok <- self_get access_token ;;
  try_except
    (response <- in_world (request (Fetched tok)) ;;
     if status_code response =? 200 then lift_result (response_json response)
     else if status_code response =? 204 then ret (JObj [("is_playing", JBool false)])
     else in_world (debug_print (ApiError (payload response))) ;; ret JNull)
    (fun e => in_world (debug_print (NetworkError e)) ;; ret JNull).

(** [not self.access_token or time.time() > self.expires_at - 60]: the clock
    is read only when a token is held. *)
Definition token_needs_refresh : M state bool :=
  tok <- self_get access_token ;;
  if negb (truthy tok) then ret true
  else
    now <- in_world time_time ;;
    expiry <- self_get expires_at ;;
    ret (now >? expiry - 60).

Definition get_current_track : M state json :=
  in_world (emit (Called GetCurrentTrack)) ;;
  stale <- token_needs_refresh ;;
  if stale : bool then
    refreshed <- refresh_access_token ;;
    if negb refreshed then ret JNull else fetch_current_track
  else fetch_current_track.

(** ** The command handler *)

Definition WEECHAT_RC_OK : Z := 0.

(** The module-level [spotify] is [None] until [SpotifyClient()] succeeded. *)
Definition session : Type := option client * world.

Definition on_spotify {A} (m : M state A) : M session A :=
  fun g => match fst g with
           | None => (Raise AttributeError, g)
           | Some c => let (r, s') := m (c, snd g) in (r, (Some (fst s'), snd s'))
           end.

Definition in_session {A} (m : M world A) : M session A :=
  fun g => let (r, w') := m (snd g) in (r, (fst g, w')).

Definition np_command_cb : M session Z :=
  try_except
    (track_data <- on_spotify get_current_track ;;
     if negb (truthy track_data) then
       in_session (debug_print CouldntGetCurrentTrack)
     else
       track_info <- lift_result (format_track_info track_data) ;;
       match track_info with
       | Some line =>
           if negb (String.eqb line "") then in_session (emit (Said line))
           else in_session (debug_print NoTrackPlaying)
       | None => in_session (debug_print NoTrackPlaying)
       end)
    (fun e => in_session (debug_print (ErrorInNpCommand e))) ;;
  ret WEECHAT_RC_OK.

(** ** Vocabulary of the statements *)

(** *** Payloads shaped like Spotify's currently-playing object *)

(** The fields the formatter reads, typed as the data model has them: the
    artists are named objects, [item], [album] and [external_urls] are
    objects when present, the two times are numbers.  The track name, the
    album name and the URL are kept as they come. *)
Record track : Type := {
  t_artists : list string;
  t_name : json;
  t_album : json;
  t_url : json;
  t_progress_ms : Z;
  t_duration_ms : Z
}.

Definition as_dict (v : json) : option dict :=
  match v with JObj d => Some d | _ => None end.

Definition as_list (v : json) : option (list json) :=
  match v with JList l => Some l | _ => None end.

Definition as_number (v : json) : option Z :=
  match as_int v with Ok n => Some n | Raise _ => None end.

Definition named (artist : json) : option string :=
  match artist with
  | JObj d => match dict_get d "name" with Some (JStr n) => Some n | _ => None end
  | _ => None
  end.

Fixpoint all_named (artists : list json) : option (list string) :=
  match artists with
  | [] => Some []
  | a :: rest =>
      match named a, all_named rest with
      | Some n, Some ns => Some (n :: ns)
      | _, _ => None
      end
  end.

Definition obind {A B} (o : option A) (k : A -> option B) : option B :=
  match o with Some a => k a | None => None end.

Definition read_track (d : dict) : option track :=
  obind (as_dict (dict_get_or d "item" (JObj []))) (fun item =>
  obind (as_list (dict_get_or item "artists" (JList []))) (fun artists =>
  obind (all_named artists) (fun names =>
  obind (as_dict (dict_get_or item "album" (JObj []))) (fun album =>
  obind (as_dict (dict_get_or item "external_urls" (JObj []))) (fun urls =>
  obind (as_number (dict_get_or item "duration_ms" (JNum 0))) (fun duration =>
  obind (as_number (dict_get_or d "progress_ms" (JNum 0))) (fun progress =>
  Some {| t_artists := names;
          t_name := dict_get_or item "name" (JStr "Unknown Track");
          t_album := dict_get_or album "name" (JStr "Unknown Album");
          t_url := dict_get_or urls "spotify" (JStr "");
          t_progress_ms := progress;
          t_duration_ms := duration |}))))))).

(** A payload counts as playing when [is_playing] is missing or true. *)
Definition playing (d : dict) : bool := truthy (dict_get_or d "is_playing" (JBool true)).

(** *** The rendering of a time and of the line *)

Definition digit (n : Z) : ascii := ascii_of_nat (48 + Z.to_nat n).

Definition two_digits (n : Z) : string :=
  String (digit (n / 10)) (String (digit (n mod 10)) "").

(** minutes, a colon, seconds on two digits *)
Definition minutes_seconds (ms : Z) : string :=
  py_str_int (ms / 1000 / 60) ++ ":" ++ two_digits ((ms / 1000) mod 60).

Definition listen_segment (url : json) : string :=
  if truthy url then "Listen: " ++ py_str url else "".

(** The line the source builds from the fields of a track. *)
Definition now_playing (t : track) : string :=
  note_prefix ++ "Now playing: " ++ concat ", " (t_artists t) ++ " - " ++ py_str (t_name t)
  ++ " | (from " ++ py_str (t_album t) ++ ") | Progress: "
  ++ minutes_seconds (t_progress_ms t) ++ "/" ++ minutes_seconds (t_duration_ms t)
  ++ " | " ++ listen_segment (t_url t).

(** The line as the specification words it: no sign in front, and without a
    URL neither the listen segment nor the separator before it. *)
Definition spec_line (t : track) : string :=
  "Now playing: " ++ concat ", " (t_artists t) ++ " - " ++ py_str (t_name t)
  ++ " | (from " ++ py_str (t_album t) ++ ") | Progress: "
  ++ minutes_seconds (t_progress_ms t) ++ "/" ++ minutes_seconds (t_duration_ms t)
  ++ (if truthy (t_url t) then " | Listen: " ++ py_str (t_url t) else "").

(** *** Reading a trace *)

(** The events a run added to the trace of the world it started in. *)
Definition events_since (w w' : world) : list event :=
  skipn (List.length (trace w)) (trace w').

Definition is_call (f : fname) (e : event) : bool :=
  match e with
  | Called g => fname_eqb f g
  | _ => false
  end.

Definition is_fetch (e : event) : bool :=
  match e with
  | Fetched _ => true
  | _ => false
  end.

(** How many times the method [f] was entered. *)
Definition calls (f : fname) (tr : list event) : nat :=
  List.length (filter (is_call f) tr).

Definition fetches (tr : list event) : nat :=
  List.length (filter is_fetch tr).

(** What a run adds to the trace, whatever the state it runs in. *)
Class Traced (S : Type) : Type := trace_of : S -> list event.

#[global] Instance world_traced : Traced world := trace.
#[global] Instance state_traced : Traced state := fun s => trace (snd s).
#[global] Instance session_traced : Traced session := fun g => trace (snd g).

(** [adds_only P m]: a run of [m] keeps the trace it finds and appends only
    events that satisfy [P]. *)
Definition adds_only {S A} `{Traced S} (P : event -> bool) (m : M S A) : Prop :=
  forall s, exists news,
    trace_of (snd (m s)) = (trace_of s ++ news)%list /\ forallb P news = true.

Definition not_call (f : fname) (e : event) : bool := negb (is_call f e).

(** In the trace the method [f] is entered before the first fetch, if any. *)
Fixpoint called_before_fetch (f : fname) (tr : list event) : bool :=
  match tr with
  | [] => true
  | e :: rest =>
      if is_call f e then true
      else if is_fetch e then false
      else called_before_fetch f rest
  end.

(** ** Concrete payloads, responses and worlds *)

Definition spec_example : json :=
  JObj [("is_playing", JBool true); ("progress_ms", JNum 65000);
        ("item", JObj [("duration_ms", JNum 185000); ("name", JStr "X");
                       ("album", JObj [("name", JStr "A")]);
                       ("artists", JList [JObj [("name", JStr "B")];
                                          JObj [("name", JStr "C")]]);
                       ("external_urls", JObj [("spotify", JStr "u")])])].

(** The same track without [external_urls]. *)
Definition no_url_example : dict :=
  [("is_playing", JBool true); ("progress_ms", JNum 65000);
   ("item", JObj [("duration_ms", JNum 185000); ("name", JStr "X");
                  ("album", JObj [("name", JStr "A")]);
                  ("artists", JList [JObj [("name", JStr "B")];
                                     JObj [("name", JStr "C")]])])].

(** What Spotify sends while it plays something that is not a track. *)
Definition no_item_example : dict :=
  [("is_playing", JBool true); ("item", JNull)].

(** A payload without [is_playing]. *)
Definition no_flag_example : dict :=
  [("progress_ms", JNum 65000);
   ("item", JObj [("duration_ms", JNum 185000); ("name", JStr "X")])].

Definition world_at (start : Z) (net : nat -> outcome) (creds : credentials_state) : world :=
  {| clock := fun n => start + Z.of_nat n; ticks := 0;
     network := net; sent := 0; browser := Opens;
     credentials_file := creds; cache_file := None; trace := [] |}.

Definition always (o : outcome) : nat -> outcome := fun _ => o.

Definition reply (status : Z) (b : body) : outcome :=
  Reply {| status_code := status; payload := b |}.

Definition stored_credentials : dict :=
  [("client_id", JStr "id"); ("refresh_token", JStr "old"); ("client_secret", JStr "secret")].

Definition bare_credentials : dict :=
  [("client_id", JStr "id"); ("client_secret", JStr "secret")].




(** A client that holds the token "A", good until [expiry]. *)
Definition client_with_token (expiry : Z) : client :=
  {| client_id := JStr "id"; client_secret := JStr "secret";
     refresh_token := JStr "old"; access_token := JStr "A"; expires_at := expiry |}.

Definition invalid_grant_body : dict :=
  [("error", JStr "invalid_grant"); ("error_description", JStr "Refresh token revoked")].

Definition token_body : dict :=
  [("access_token", JStr "B"); ("token_type", JStr "Bearer"); ("expires_in", JNum 3600);
   ("refresh_token", JStr "new")].


Definition network_down : world := world_at 1000 (always Fails) NoFile.

From Stdlib Require DecimalPos DecimalZ.

(** ** Start-up: [load_credentials], [SpotifyClient()] and the main block *)

(** *** Reading the cache file: [cache_file.read().strip()] *)

(** The cache file holds the bytes [f.write(token)] leaves on a POSIX
    system, read as UTF-8.  A file opened in text mode is read with
    universal newlines: a carriage return, alone or before a line feed,
    comes out as one line feed. *)
Fixpoint universal_newlines (s : string) : string :=
  match s with
  | EmptyString => EmptyString
  | String c rest =>
      if (nat_of_ascii c =? 13)%nat then
        match rest with
        | String c' rest' =>
            if (nat_of_ascii c' =? 10)%nat
            then String (ascii_of_nat 10) (universal_newlines rest')
            else String (ascii_of_nat 10) (universal_newlines rest)
        | EmptyString => String (ascii_of_nat 10) EmptyString
        end
      else String c (universal_newlines rest)
  end.

(** The whitespace of [str.isspace]: U+0009..000D, U+001C..0020, and, by
    their UTF-8 bytes, U+0085, U+00A0, U+1680, U+2000..200A, U+2028, U+2029,
    U+202F, U+205F and U+3000. *)
Definition space1 (a : ascii) : bool :=
  let n := nat_of_ascii a in
  (((9 <=? n) && (n <=? 13)) || ((28 <=? n) && (n <=? 32)))%nat.

Definition space2 (a b : ascii) : bool :=
  let m := nat_of_ascii a in
  let n := nat_of_ascii b in
  ((m =? 194) && ((n =? 133) || (n =? 160)))%nat.

Definition space3 (a b c : ascii) : bool :=
  let l := nat_of_ascii a in
  let m := nat_of_ascii b in
  let n := nat_of_ascii c in
  (((l =? 225) && (m =? 154) && (n =? 128))
   || ((l =? 226) && (m =? 128)
       && (((128 <=? n) && (n <=? 138)) || (n =? 168) || (n =? 169) || (n =? 175)))
   || ((l =? 226) && (m =? 129) && (n =? 159))
   || ((l =? 227) && (m =? 128) && (n =? 128)))%nat.

Fixpoint lstrip (s : string) : string :=
  match s with
  | EmptyString => EmptyString
  | String a s1 =>
      if space1 a then lstrip s1
      else
        match s1 with
        | EmptyString => s
        | String b s2 =>
            if space2 a b then lstrip s2
            else
              match s2 with
              | EmptyString => s
              | String c s3 => if space3 a b c then lstrip s3 else s
              end
        end
  end.

(** What is left when the whitespace at the end is dropped: the text up to
    the point from which only whitespace follows. *)
Fixpoint rstrip (s : string) : string :=
  match s with
  | EmptyString => EmptyString
  | String a rest =>
      if String.eqb (lstrip s) "" then EmptyString else String a (rstrip rest)
  end.

Definition py_strip (s : string) : string := lstrip (rstrip s).

(** *** [load_credentials] *)

(** The exceptions of the start-up code: those of the methods, and the
    [ValueError("Missing required credentials")] of [load_credentials]. *)
Inductive py_exn : Type :=
| Std (e : exn)
| ValueError.

Inductive py_result (A : Type) : Type :=
| Returned (a : A)
| Raised (e : py_exn).

Arguments Returned {A} a.
Arguments Raised {A} e.

Definition of_result {A} (r : result A) : py_result A :=
  match r with
  | Ok a => Returned a
  | Raise e => Raised (Std e)
  end.

Definition pbind {A B} (r : py_result A) (k : A -> py_result B) : py_result B :=
  match r with
  | Returned a => k a
  | Raised e => Raised e
  end.

(** The lines the start-up code prints.  They have no constructor in
    [log_line]; the start-up code returns what it prints, in order. *)
Inductive boot_line : Type :=
| ErrorLoadingCredentials (e : py_exn)
| LoadingScript
| ScriptLoaded
| NpAvailable
| InitialRefreshFailed
| InitializationFailed (e : py_exn)
| PleaseCheckCredentials.

(** The body of the [try] of [load_credentials].  It only reads. *)
Definition load_credentials_try (w : world) : py_result (json * json * json) :=
  pbind (of_result (fst (load_credentials_file w))) (fun credentials =>
  pbind (of_result (py_getitem credentials "client_id")) (fun cid =>
  pbind (of_result (py_getitem credentials "client_secret")) (fun csecret =>
  pbind (of_result (py_get credentials "refresh_token" JNull)) (fun rtoken =>
  let rtoken :=
    if negb (truthy rtoken) then
      match cache_file w with
      | Some text => JStr (py_strip (universal_newlines text))
      | None => rtoken
      end
    else rtoken in
  if negb (truthy cid) || negb (truthy csecret) || negb (truthy rtoken)
  then Raised ValueError
  else Returned (cid, csecret, rtoken))))).

(** [load_credentials]: the result, and the line printed before an
    exception is raised again. *)
Definition load_credentials (w : world) : py_result (json * json * json) * list boot_line :=
  match load_credentials_try w with
  | Returned v => (Returned v, [])
  | Raised e => (Raised e, [ErrorLoadingCredentials e])
  end.

(** [SpotifyClient()] *)
Definition spotify_client (w : world) : py_result client * list boot_line :=
  match load_credentials w with
  | (Returned (cid, csecret, rtoken), printed) => (Returned (new_client cid csecret rtoken), printed)
  | (Raised e, printed) => (Raised e, printed)
  end.

(** *** The main block *)

(** What the main block does, in order: the lines it prints, the command it
    hooks, and the events of the method it runs. *)
Inductive boot_event : Type :=
| BootPrinted (l : boot_line)
| HookedCommand                (* weechat.hook_command("np", ..., "np_command_cb", "") *)
| MethodEvent (e : event).

(** The block under [if __name__ == "__main__" and weechat.register(...)];
    [registered] is the value of that condition.  It ends with the value of
    the global [spotify]. *)
Definition script_main (registered : bool) (w : world) : session * list boot_event :=
  if negb registered then ((None, w), [])
  else
    match spotify_client w with
    | (Raised e, printed) =>
        ((None, w),
         (BootPrinted LoadingScript :: map BootPrinted printed
          ++ [BootPrinted (InitializationFailed e); BootPrinted PleaseCheckCredentials])%list)
    | (Returned c, printed) =>
        let out := refresh_access_token (c, w) in
        let c' := fst (snd out) in
        let w' := snd (snd out) in
        let done :=
          (BootPrinted LoadingScript :: map BootPrinted printed
           ++ [HookedCommand; BootPrinted ScriptLoaded; BootPrinted NpAvailable]
           ++ map MethodEvent (events_since w w'))%list in
        match fst out with
        | Ok true => ((Some c', w'), done)
        | Ok false => ((Some c', w'), (done ++ [BootPrinted InitialRefreshFailed])%list)
        | Raise e =>
            ((Some c', w'),
             (done ++ [BootPrinted (InitializationFailed (Std e));
                       BootPrinted PleaseCheckCredentials])%list)
        end
    end.

(** *** More vocabulary *)

Definition is_said (e : event) : bool :=
  match e with
  | Said _ => true
  | _ => false
  end.

Definition is_post (e : event) : bool :=
  match e with
  | Posted _ _ _ => true
  | _ => false
  end.



Definition is_hook (e : boot_event) : bool :=
  match e with
  | HookedCommand => true
  | _ => false
  end.

Definition credentials_with (cid csecret : json) (rest : dict) : dict :=
  ("client_id", cid) :: ("client_secret", csecret) :: rest.

(** A document that is neither an object, a list nor a string. *)
Definition scalar (j : json) : bool :=
  match j with
  | JNull | JBool _ | JNum _ => true
  | _ => false
  end.

(** How many POST requests a trace holds, and how many lines were said. *)
Definition posts (tr : list event) : nat := List.length (filter is_post tr).

Definition said (tr : list event) : list string :=
  flat_map (fun e => match e with Said line => [line] | _ => [] end) tr.

(** Neither a POST nor a GET. *)
Definition no_request (e : event) : bool := negb (is_post e) && negb (is_fetch e).

(** The identity of the client: the two fields no method assigns. *)
Definition same_identity (c c' : client) : Prop :=
  client_id c' = client_id c /\ client_secret c' = client_secret c.

(** [stays R m]: every run of [m] ends in a state related by [R] to the one
    it started in. *)
Definition stays {S A} (R : S -> S -> Prop) (m : M S A) : Prop :=
  forall s, R s (snd (m s)).

Definition same_client (s s' : state) : Prop := same_identity (fst s) (fst s').

(** The global [spotify] is still unset, or still the client it was. *)
Definition same_spotify (g g' : session) : Prop :=
  match fst g, fst g' with
  | Some c, Some c' => same_identity c c'
  | None, None => True
  | _, _ => False
  end.

(** The two files are as they were. *)
Definition same_files (w w' : world) : Prop :=
  credentials_file w' = credentials_file w /\ cache_file w' = cache_file w.

(** The condition under which [get_current_track] refreshes first. *)
Definition needs_refresh (c : client) (w : world) : Prop :=
  truthy (access_token c) = false \/ clock w (ticks w) > expires_at c - 60.


(** What the fetch returns for an answer of the resource endpoint. *)
Definition fetched (o : outcome) : json :=
  match o with
  | Fails => JNull
  | Reply r =>
      if status_code r =? 200 then
        match payload r with Json j => j | NotJson _ => JNull end
      else if status_code r =? 204 then JObj [("is_playing", JBool false)]
      else JNull
  end.

Definition not_said (e : event) : bool := negb (is_said e).

(** The methods are unfolded by hand in the proofs. *)
Arguments refresh_access_token : simpl never.
Arguments fetch_current_track : simpl never.
Arguments save_refresh_token : simpl never.
Arguments start_authentication : simpl never.

(** * Theorems *)

(** ** TrackFormatter *)

Lemma format_02d_two_digits (s : Z) : 0 <= s < 60 -> format_02d s = two_digits s.
Proof.
  intros Hs.
  assert (Hall : forallb (fun n => String.eqb (format_02d (Z.of_nat n)) (two_digits (Z.of_nat n)))
                         (seq 0 60) = true) by (vm_compute; reflexivity).
  rewrite forallb_forall in Hall.
  specialize (Hall (Z.to_nat s)).
  rewrite Z2Nat.id in Hall by lia.
  apply String.eqb_eq, Hall, in_seq. lia.
Qed.

Lemma ms_to_minutes_seconds_int (v : json) (ms : Z) :
  as_int v = Ok ms -> ms_to_minutes_seconds v = Ok (minutes_seconds ms).
Proof.
  intros Hv. unfold ms_to_minutes_seconds, minutes_seconds. rewrite Hv. cbn [rbind].
  rewrite format_02d_two_digits; [reflexivity|].
  apply Z.mod_pos_bound. lia.
Qed.

Lemma artist_names_named (artists : list json) (names : list string) :
  all_named artists = Some names -> artist_names artists = Ok (map JStr names).
Proof.
  revert names. induction artists as [|a rest IH]; intros names H; cbn in *.
  - injection H as <-. reflexivity.
  - destruct (named a) as [n|] eqn:Ha; [|discriminate].
    destruct (all_named rest) as [ns|]; [|discriminate].
    injection H as <-.
    destruct a; cbn in Ha; try discriminate.
    destruct (dict_get d "name") as [[]|] eqn:Hd; try discriminate.
    injection Ha as ->. cbn. rewrite Hd. cbn. rewrite (IH ns eq_refl). reflexivity.
Qed.

Lemma py_join_strs (sep : string) (names : list string) :
  py_join sep (map JStr names) = Ok (concat sep names).
Proof.
  induction names as [|n rest IH]; [reflexivity|].
  cbn [map py_join]. destruct rest as [|m rest']; [reflexivity|].
  cbn [map] in *. rewrite IH. reflexivity.
Qed.

Lemma as_number_int (v : json) (n : Z) : as_number v = Some n -> as_int v = Ok n.
Proof.
  unfold as_number. destruct (as_int v); intros H; now inversion H.
Qed.

(** A non-empty playing payload of the expected shape is rendered by the
    template of the source. *)
Lemma format_track_info_playing (d : dict) (t : track) :
  d <> [] -> playing d = true -> read_track d = Some t ->
  format_track_info (JObj d) = Ok (Some (now_playing t)).
Proof.
  intros Hne Hplay Hread. unfold format_track_info.
  replace (truthy (JObj d)) with true by (destruct d; [congruence|reflexivity]).
  cbn [negb py_get rbind]. unfold playing in Hplay. rewrite Hplay. cbn [negb].
  unfold read_track in Hread.
  destruct (dict_get_or d "item" (JObj [])) as [| | | | |item]; try discriminate.
  cbn [as_dict obind] in Hread. cbn [py_get rbind].
  destruct (dict_get_or item "artists" (JList [])) as [| | | |artists|]; try discriminate.
  cbn [as_list obind] in Hread. cbn [py_iter rbind].
  destruct (all_named artists) as [names|] eqn:Hnames; [|discriminate].
  cbn [obind] in Hread.
  rewrite (artist_names_named _ _ Hnames). cbn [rbind].
  rewrite py_join_strs. cbn [rbind].
  destruct (dict_get_or item "album" (JObj [])) as [| | | | |album]; try discriminate.
  cbn [as_dict obind] in Hread. cbn [py_get rbind].
  destruct (dict_get_or item "external_urls" (JObj [])) as [| | | | |urls]; try discriminate.
  cbn [as_dict obind] in Hread. cbn [py_get rbind].
  destruct (as_number (dict_get_or item "duration_ms" (JNum 0))) as [duration|] eqn:Hdur;
    [|discriminate].
  destruct (as_number (dict_get_or d "progress_ms" (JNum 0))) as [progress|] eqn:Hpro;
    [|discriminate].
  cbn [obind] in Hread. injection Hread as <-.
  rewrite (ms_to_minutes_seconds_int _ _ (as_number_int _ _ Hpro)).
  rewrite (ms_to_minutes_seconds_int _ _ (as_number_int _ _ Hdur)).
  reflexivity.
Qed.

(** C7. The formatter renders the example payload of the specification with
    "B, C - X", "(from A)", "Progress: 1:05/3:05" and "Listen: u" in the line,
    and every millisecond count ms is rendered as (ms div 1000) div 60, a
    colon, and (ms div 1000) mod 60 on exactly two digits. *)
Theorem format_example_and_time_rendering :
  (exists line,
      format_track_info spec_example = Ok (Some line)
      /\ is_infix "B, C - X" line = true
      /\ is_infix "(from A)" line = true
      /\ is_infix "Progress: 1:05/3:05" line = true
      /\ is_infix "Listen: u" line = true)
  /\ (forall ms : Z,
        ms_to_minutes_seconds (JNum ms)
        = Ok (py_str_int (ms / 1000 / 60) ++ ":" ++ two_digits ((ms / 1000) mod 60))).
Proof.
  split.
  - eexists. split; [vm_compute; reflexivity|]. repeat split; vm_compute; reflexivity.
  - intros ms. apply (ms_to_minutes_seconds_int (JNum ms) ms). reflexivity.
Qed.

Lemma string_app_assoc (a b c : string) : ((a ++ b) ++ c = a ++ b ++ c)%string.
Proof. induction a as [|x a IH]; cbn; [reflexivity|]. rewrite IH. reflexivity. Qed.

Lemma string_app_nil_r (a : string) : (a ++ "" = a)%string.
Proof. induction a as [|x a IH]; cbn; [reflexivity|]. rewrite IH. reflexivity. Qed.

(** The line of the source is the line of the specification behind the
    note sign, with a dangling separator when there is no URL. *)
Lemma now_playing_spec_line (t : track) :
  now_playing t
  = note_prefix ++ spec_line t ++ (if truthy (t_url t) then "" else " | ").
Proof.
  unfold now_playing, spec_line, listen_segment.
  destruct (truthy (t_url t)).
  - rewrite !string_app_assoc, string_app_nil_r. reflexivity.
  - rewrite !string_app_assoc. reflexivity.
Qed.

(** A payload whose [item] is null is outside that shape: [None] has no
    [get], and the exception leaves the formatter. *)
Lemma format_track_info_without_item :
  read_track no_item_example = None
  /\ format_track_info (JObj no_item_example) = Raise AttributeError.
Proof. split; reflexivity. Qed.

(** C8, as the code has it.  For a playing track payload the formatter
    returns one line: the note sign of the source, then the template
    "Now playing: {artists} - {track} | (from {album}) | Progress: {pos}/{dur}",
    then " | Listen: {url}" when there is a URL, and the bare separator " | "
    when the URL is missing. *)
Theorem playing_track_line (d : dict) (t : track) :
  d <> [] -> playing d = true -> read_track d = Some t ->
  format_track_info (JObj d) = Ok (Some (now_playing t))
  /\ (truthy (t_url t) = true -> now_playing t = note_prefix ++ spec_line t)
  /\ (truthy (t_url t) = false ->
      listen_segment (t_url t) = "" /\ now_playing t = note_prefix ++ spec_line t ++ " | ").
Proof.
  intros Hne Hplay Hread.
  split; [apply format_track_info_playing; assumption|].
  rewrite now_playing_spec_line. unfold listen_segment.
  split; intros Hurl; rewrite Hurl.
  - rewrite string_app_nil_r. reflexivity.
  - split; reflexivity.
Qed.

Lemma playing_track_line_witness :
  exists t,
    no_url_example <> [] /\ playing no_url_example = true
    /\ read_track no_url_example = Some t
    /\ format_track_info (JObj no_url_example) = Ok (Some (now_playing t))
    /\ (truthy (t_url t) = true -> now_playing t = note_prefix ++ spec_line t)
    /\ (truthy (t_url t) = false ->
        listen_segment (t_url t) = "" /\ now_playing t = note_prefix ++ spec_line t ++ " | ").
Proof.
  eexists. split; [discriminate|]. split; [reflexivity|]. split; [reflexivity|].
  apply (playing_track_line no_url_example); [discriminate|reflexivity|reflexivity].
Defined.

(** Without a URL the line of the source is not the line of the
    specification: it starts with the note sign and keeps the separator. *)
Lemma line_without_url_differs :
  exists t,
    read_track no_url_example = Some t
    /\ truthy (t_url t) = false
    /\ spec_line t = "Now playing: B, C - X | (from A) | Progress: 1:05/3:05"
    /\ format_track_info (JObj no_url_example)
       = Ok (Some "ðŸŽµ Now playing: B, C - X | (from A) | Progress: 1:05/3:05 | ")
    /\ format_track_info (JObj no_url_example) <> Ok (Some (spec_line t)).
Proof.
  eexists. split; [reflexivity|]. split; [reflexivity|].
  split; [vm_compute; reflexivity|]. split; [vm_compute; reflexivity|].
  vm_compute. discriminate.
Qed.

(** C10, as the code has it.  A non-empty payload without the key
    is_playing is treated as playing: the formatter returns the line and not
    absent. *)
Theorem missing_flag_means_playing (d : dict) (t : track) :
  d <> [] -> dict_get d "is_playing" = None -> read_track d = Some t ->
  format_track_info (JObj d) = Ok (Some (now_playing t)).
Proof.
  intros Hne Hflag Hread. apply format_track_info_playing; try assumption.
  unfold playing, dict_get_or. rewrite Hflag. reflexivity.
Qed.

Lemma missing_flag_means_playing_witness :
  exists t,
    no_flag_example <> [] /\ dict_get no_flag_example "is_playing" = None
    /\ read_track no_flag_example = Some t
    /\ format_track_info (JObj no_flag_example) = Ok (Some (now_playing t)).
Proof.
  eexists. split; [discriminate|]. split; [reflexivity|]. split; [reflexivity|].
  apply (missing_flag_means_playing no_flag_example); [discriminate|reflexivity|reflexivity].
Defined.

(** The empty object is a payload, it has no is_playing key, and the
    formatter returns absent for it. *)
Lemma empty_payload_is_absent :
  JObj [] <> JNull
  /\ dict_get [] "is_playing" = None
  /\ format_track_info (JObj []) = Ok None.
Proof. split; [discriminate|]. split; reflexivity. Qed.

(** ** Traces *)

Lemma events_since_app (w w' : world) (news : list event) :
  trace w' = (trace w ++ news)%list -> events_since w w' = news.
Proof.
  intros H. unfold events_since. rewrite H.
  rewrite skipn_app, skipn_all, Nat.sub_diag. reflexivity.
Qed.

Lemma calls_app (f : fname) (l l' : list event) :
  calls f (l ++ l')%list = (calls f l + calls f l')%nat.
Proof. unfold calls. rewrite filter_app, length_app. reflexivity. Qed.

Lemma calls_none (f : fname) (l : list event) :
  forallb (not_call f) l = true -> calls f l = 0%nat.
Proof.
  unfold calls, not_call. induction l as [|e l IH]; cbn; [reflexivity|].
  intros H. apply andb_prop in H as [He Hl].
  destruct (is_call f e); [discriminate|]. auto.
Qed.

(** ** CredentialStore *)

Lemma dict_set_get_same (d : dict) (k : string) (v : json) :
  dict_get (dict_set d k v) k = Some v.
Proof.
  induction d as [|[k' v'] d IH]; cbn.
  - rewrite String.eqb_refl. reflexivity.
  - destruct (String.eqb k' k) eqn:E; cbn; rewrite E; auto.
Qed.









(** ** What the methods add to the trace *)

Section AddsOnly.
Context {S : Type} `{Traced S} (P : event -> bool).

Lemma adds_only_ret {A} (a : A) : adds_only P (ret a).
Proof. intros s. exists []. cbn. rewrite app_nil_r. auto. Qed.

Lemma adds_only_raise {A} (e : exn) : adds_only P (@raise S A e).
Proof. intros s. exists []. cbn. rewrite app_nil_r. auto. Qed.

Lemma adds_only_lift_result {A} (r : result A) : adds_only P (@lift_result S A r).
Proof. intros s. exists []. cbn. rewrite app_nil_r. auto. Qed.

Lemma adds_only_bind {A B} (m : M S A) (k : A -> M S B) :
  adds_only P m -> (forall a, adds_only P (k a)) -> adds_only P (bind m k).
Proof.
  intros Hm Hk s. unfold bind.
  destruct (Hm s) as (n1 & E1 & F1).
  destruct (m s) as [[a|e] s']; cbn [snd] in *.
  - destruct (Hk a s') as (n2 & E2 & F2).
    exists (n1 ++ n2)%list. rewrite E2, E1, app_assoc, forallb_app, F1, F2. auto.
  - exists n1. auto.
Qed.

Lemma adds_only_try_except {A} (m : M S A) (h : exn -> M S A) :
  adds_only P m -> (forall e, adds_only P (h e)) -> adds_only P (try_except m h).
Proof.
  intros Hm Hh s. unfold try_except.
  destruct (Hm s) as (n1 & E1 & F1).
  destruct (m s) as [[a|e] s']; cbn [snd] in *.
  - exists n1. auto.
  - destruct (Hh e s') as (n2 & E2 & F2).
    exists (n1 ++ n2)%list. rewrite E2, E1, app_assoc, forallb_app, F1, F2. auto.
Qed.
End AddsOnly.

Lemma adds_only_emit (P : event -> bool) (e : event) :
  P e = true -> adds_only P (emit e).
Proof. intros He w. exists [e]. cbn. rewrite He. auto. Qed.

Lemma adds_only_silent {A} (P : event -> bool) (m : M world A) :
  (forall w, trace (snd (m w)) = trace w) -> adds_only P m.
Proof. intros Hm w. exists []. unfold trace_of, world_traced. rewrite Hm, app_nil_r. auto. Qed.

Lemma adds_only_in_world {A} (P : event -> bool) (m : M world A) :
  adds_only P m -> adds_only P (in_world m).
Proof.
  intros Hm [c w]. destruct (Hm w) as (n & E & F). exists n.
  unfold in_world. cbn [snd fst]. destruct (m w) as [r w']. split; [exact E|exact F].
Qed.

Lemma adds_only_in_session {A} (P : event -> bool) (m : M world A) :
  adds_only P m -> adds_only P (in_session m).
Proof.
  intros Hm [c w]. destruct (Hm w) as (n & E & F). exists n.
  unfold in_session. cbn [snd fst]. destruct (m w) as [r w']. split; [exact E|exact F].
Qed.

Lemma adds_only_client_step {A} (P : event -> bool) (m : M state A) :
  (forall s, snd (snd (m s)) = snd s) -> adds_only P m.
Proof.
  intros Hm s. exists []. unfold trace_of, state_traced. rewrite Hm, app_nil_r. auto.
Qed.

(** One proof step for a goal [adds_only P m]: follow the shape of [m]. *)
Ltac quiet_step :=
  match goal with
  | |- adds_only _ (bind _ _) => apply adds_only_bind; [|intros]
  | |- adds_only _ (try_except _ _) => apply adds_only_try_except; [|intros]
  | |- adds_only _ (ret _) => apply adds_only_ret
  | |- adds_only _ (raise _) => apply adds_only_raise
  | |- adds_only _ (lift_result _) => apply adds_only_lift_result
  | |- adds_only _ (in_world _) => apply adds_only_in_world
  | |- adds_only _ (in_session _) => apply adds_only_in_session
  | |- adds_only _ (emit _) => apply adds_only_emit; solve [reflexivity | auto]
  | |- adds_only _ (debug_print _) => apply adds_only_emit; solve [reflexivity | auto]
  | |- adds_only _ (self_get _) => apply adds_only_client_step; reflexivity
  | |- adds_only _ (set_access_token _) => apply adds_only_client_step; reflexivity
  | |- adds_only _ (set_refresh_token _) => apply adds_only_client_step; reflexivity
  | |- adds_only _ (set_expires_at _) => apply adds_only_client_step; reflexivity
  | |- adds_only _ (if ?b then _ else _) => destruct b
  | |- adds_only _ (match ?x with _ => _ end) => destruct x
  end.

Ltac quiet := repeat quiet_step.

(** Unfold the plumbing of a method and compute. *)
Ltac run_monad :=
  unfold requests_post, request, debug_print;
  unfold bind, try_except, in_world, in_session, emit, self_get, lift_result, ret,
    set_access_token, set_refresh_token, set_expires_at, time_time, response_json;
  cbn.

Lemma adds_only_time_time (P : event -> bool) : adds_only P time_time.
Proof. apply adds_only_silent. reflexivity. Qed.

Lemma adds_only_network (P : event -> bool) :
  adds_only P (fun w => match network w (sent w) with
                        | Reply r => (Ok r, set_sent (S (sent w)) w)
                        | Fails => (Raise RequestException, set_sent (S (sent w)) w)
                        end).
Proof. apply adds_only_silent. intros w. destruct (network w (sent w)); reflexivity. Qed.

Lemma adds_only_request (P : event -> bool) (e : event) :
  P e = true -> adds_only P (request e).
Proof.
  intros He. unfold request. apply adds_only_bind; [apply adds_only_emit; exact He|].
  intros _. apply adds_only_network.
Qed.

Lemma adds_only_webbrowser_open (P : event -> bool) (cid : json) :
  P (Browser cid) = true -> adds_only P (webbrowser_open cid).
Proof.
  intros He. unfold webbrowser_open. apply adds_only_bind; [apply adds_only_emit; exact He|].
  intros _. apply adds_only_silent. intros w. destruct (browser w); reflexivity.
Qed.

Lemma adds_only_save_refresh_token (P : event -> bool) (token : json) :
  (forall l, P (Printed l) = true) -> adds_only P (save_refresh_token token).
Proof.
  intros HP. unfold save_refresh_token.
  apply adds_only_try_except; [|intros e; apply adds_only_emit, HP].
  apply adds_only_bind.
  { apply adds_only_silent. intros w. unfold load_credentials_file.
    destruct (credentials_file w); reflexivity. }
  intros credentials. apply adds_only_bind; [apply adds_only_lift_result|].
  intros has_field. apply adds_only_bind.
  - destruct has_field; [|apply adds_only_ret].
    apply adds_only_bind; [apply adds_only_lift_result|].
    intros c'. apply adds_only_silent. reflexivity.
  - intros _. apply adds_only_silent. intros w. unfold write_cache_file.
    destruct token; reflexivity.
Qed.

Lemma adds_only_start_authentication (P : event -> bool) :
  P (Called StartAuthentication) = true ->
  (forall l, P (Printed l) = true) -> (forall cid, P (Browser cid) = true) ->
  adds_only P start_authentication.
Proof.
  intros Hc Hp Hb. unfold start_authentication.
  apply adds_only_bind; [apply adds_only_in_world, adds_only_emit, Hc|]. intros _.
  apply adds_only_bind; [apply adds_only_client_step; reflexivity|]. intros cid.
  apply adds_only_bind; [apply adds_only_in_world, adds_only_emit, Hp|]. intros _.
  apply adds_only_bind; [apply adds_only_in_world, adds_only_emit, Hp|]. intros _.
  apply adds_only_in_world, adds_only_try_except.
  - apply adds_only_bind; [apply adds_only_webbrowser_open, Hb|].
    intros _. apply adds_only_ret.
  - intros _. apply adds_only_emit, Hp.
Qed.

Lemma adds_only_requests_post (P : event -> bool) (g : grant) :
  (forall cid cs, P (Posted g cid cs) = true) -> adds_only P (requests_post g).
Proof.
  intros HP. unfold requests_post. quiet. apply adds_only_request, HP.
Qed.

Lemma adds_only_fetch_current_track (P : event -> bool) :
  (forall l, P (Printed l) = true) -> (forall tok, P (Fetched tok) = true) ->
  adds_only P fetch_current_track.
Proof.
  intros Hp Hf. unfold fetch_current_track.
  apply adds_only_bind; [apply adds_only_client_step; reflexivity|]. intros tok.
  apply adds_only_try_except.
  - apply adds_only_bind; [apply adds_only_in_world, adds_only_request, Hf|].
    intros response. quiet.
  - intros e. quiet.
Qed.

Lemma adds_after_emit {A} (P : event -> bool) (e : event) (k : M state A) :
  adds_only P k ->
  forall s, exists rest,
    trace_of (snd ((in_world (emit e) ;; k) s)) = (trace_of s ++ e :: rest)%list
    /\ forallb P rest = true.
Proof.
  intros Hk [c w].
  destruct (Hk (c, set_trace (trace w ++ [e]) w)) as (rest & E & F).
  exists rest. split; [|exact F].
  unfold bind, in_world, emit. cbn [fst snd]. rewrite E.
  unfold trace_of, state_traced. cbn. rewrite <- app_assoc. reflexivity.
Qed.

(** A run of [refresh_access_token] enters the method once, at its start. *)
Lemma refresh_access_token_trace (s : state) :
  exists rest,
    trace_of (snd (refresh_access_token s))
    = (trace_of s ++ Called RefreshAccessToken :: rest)%list
    /\ forallb (not_call RefreshAccessToken) rest = true.
Proof.
  unfold refresh_access_token. apply adds_after_emit.
  quiet;
    try (apply adds_only_requests_post; reflexivity);
    try (apply adds_only_time_time);
    try (apply adds_only_save_refresh_token; reflexivity);
    try (apply adds_only_start_authentication; reflexivity).
Qed.

(** ** TokenManager *)

Lemma save_refresh_token_returns (token : json) (w : world) :
  fst (save_refresh_token token w) = Ok tt.
Proof.
  unfold save_refresh_token, try_except, bind, load_credentials_file, lift_result,
    dump_credentials_file, write_cache_file, debug_print, emit, ret.
  destruct (credentials_file w) as [| |text j]; try reflexivity.
  destruct (py_contains "refresh_token" j) as [[|]|e]; try reflexivity.
  - destruct (py_setitem j "refresh_token" token); [|reflexivity].
    destruct token; reflexivity.
  - destruct token; reflexivity.
Qed.

(** Every fetch makes one request, and prints at most. *)
Lemma fetch_current_track_trace (c : client) (w : world) :
  exists rest,
    trace (snd (snd (fetch_current_track (c, w))))
    = (trace w ++ Fetched (access_token c) :: rest)%list
    /\ fetches rest = 0%nat /\ forallb (not_call RefreshAccessToken) rest = true.
Proof.
  unfold fetch_current_track. run_monad.
  destruct (network w (sent w)) as [r|]; cbn.
  - destruct (status_code r =? 200); cbn.
    + destruct (payload r); cbn.
      * exists [Printed (NetworkError JSONDecodeError)]. rewrite <- app_assoc. auto.
      * exists []. auto.
    + destruct (status_code r =? 204); cbn.
      * exists []. auto.
      * exists [Printed (ApiError (payload r))]. rewrite <- app_assoc. auto.
  - exists [Printed (NetworkError RequestException)]. rewrite <- app_assoc. auto.
Qed.

Lemma fetches_app (l l' : list event) :
  fetches (l ++ l')%list = (fetches l + fetches l')%nat.
Proof. unfold fetches. rewrite filter_app, length_app. reflexivity. Qed.

Lemma get_current_track_fresh (c : client) (w : world) :
  truthy (access_token c) = true ->
  clock w (ticks w) <= expires_at c - 60 ->
  get_current_track (c, w)
  = fetch_current_track
      (c, set_ticks (S (ticks w)) (set_trace (trace w ++ [Called GetCurrentTrack]) w)).
Proof.
  intros Htok Hnow.
  unfold get_current_track, token_needs_refresh, bind, in_world, emit, self_get, time_time, ret.
  cbn [fst snd]. rewrite Htok. cbn [negb fst snd trace set_trace ticks clock].
  replace (clock w (ticks w) >? expires_at c - 60) with false
    by (symmetry; rewrite Z.gtb_ltb; apply Z.ltb_ge; lia).
  reflexivity.
Qed.

Lemma get_current_track_stale (c : client) (w : world) :
  truthy (access_token c) = true ->
  clock w (ticks w) > expires_at c - 60 ->
  get_current_track (c, w)
  = (refreshed <- refresh_access_token ;;
     if negb refreshed then ret JNull else fetch_current_track)
      (c, set_ticks (S (ticks w)) (set_trace (trace w ++ [Called GetCurrentTrack]) w)).
Proof.
  intros Htok Hnow.
  unfold get_current_track, token_needs_refresh.
  unfold bind at 1 2 3 4 5. unfold in_world, emit, self_get, time_time, ret.
  cbn [fst snd]. rewrite Htok. cbn [negb fst snd trace set_trace ticks clock].
  replace (clock w (ticks w) >? expires_at c - 60) with true
    by (symmetry; rewrite Z.gtb_ltb; apply Z.ltb_lt; lia).
  reflexivity.
Qed.

Lemma refresh_then_fetch_trace (s : state) :
  exists rest,
    trace_of (snd ((refreshed <- refresh_access_token ;;
                    if negb refreshed then ret JNull else fetch_current_track) s))
    = (trace_of s ++ Called RefreshAccessToken :: rest)%list
    /\ forallb (not_call RefreshAccessToken) rest = true.
Proof.
  destruct (refresh_access_token_trace s) as (rest & E & F).
  unfold bind. destruct (refresh_access_token s) as [[[|]|e] s']; cbn [snd negb] in *.
  - destruct (adds_only_fetch_current_track (not_call RefreshAccessToken)
                (fun _ => eq_refl) (fun _ => eq_refl) s') as (more & E' & F').
    exists (rest ++ more)%list. rewrite E', E, <- app_assoc, forallb_app, F, F'. auto.
  - exists rest. auto.
  - exists rest. auto.
Qed.

(** C1, as the code has it.  On a client that holds an access token,
    get_current_track() fetches without invoking refresh_access_token()
    when the clock reads at most expires_at - 60, and invokes it exactly
    once, before any fetch, when the clock reads more than expires_at - 60. *)
Theorem get_current_track_refreshes_when_due (c : client) (w : world) :
  truthy (access_token c) = true ->
  let now := clock w (ticks w) in
  let news := events_since w (snd (snd (get_current_track (c, w)))) in
  (now <= expires_at c - 60 ->
   calls RefreshAccessToken news = 0%nat /\ fetches news = 1%nat)
  /\ (now > expires_at c - 60 ->
      calls RefreshAccessToken news = 1%nat
      /\ called_before_fetch RefreshAccessToken news = true).
Proof.
  intros Htok now news. subst now news. split; intros Hnow.
  - rewrite get_current_track_fresh by assumption.
    destruct (fetch_current_track_trace
                c (set_ticks (S (ticks w)) (set_trace (trace w ++ [Called GetCurrentTrack]) w)))
      as (rest & E & Hfetch & Hcalls).
    cbn [trace set_trace set_ticks] in E.
    rewrite (events_since_app w _ (Called GetCurrentTrack :: Fetched (access_token c) :: rest))
      by (rewrite E, <- app_assoc; reflexivity).
    change (Called GetCurrentTrack :: Fetched (access_token c) :: rest)
      with ([Called GetCurrentTrack; Fetched (access_token c)] ++ rest)%list.
    rewrite calls_app, fetches_app, (calls_none _ _ Hcalls), Hfetch. split; reflexivity.
  - rewrite get_current_track_stale by assumption.
    destruct (refresh_then_fetch_trace
                (c, set_ticks (S (ticks w)) (set_trace (trace w ++ [Called GetCurrentTrack]) w)))
      as (rest & E & F).
    unfold trace_of, state_traced in E. cbn [snd trace set_trace set_ticks] in E.
    rewrite (events_since_app w _ (Called GetCurrentTrack :: Called RefreshAccessToken :: rest))
      by (rewrite E, <- app_assoc; reflexivity).
    split; [|reflexivity].
    change (Called GetCurrentTrack :: Called RefreshAccessToken :: rest)
      with ([Called GetCurrentTrack; Called RefreshAccessToken] ++ rest)%list.
    rewrite calls_app, (calls_none _ _ F). reflexivity.
Qed.

Lemma get_current_track_refreshes_when_due_witness :
  let c := client_with_token 1000 in
  let w := world_at 2000 (always (reply 200 (Json (JObj token_body)))) NoFile in
  let news := events_since w (snd (snd (get_current_track (c, w)))) in
  truthy (access_token c) = true
  /\ clock w (ticks w) > expires_at c - 60
  /\ calls RefreshAccessToken news = 1%nat
  /\ called_before_fetch RefreshAccessToken news = true.
Proof.
  cbv zeta. split; [reflexivity|]. split; [cbn; lia|].
  apply (get_current_track_refreshes_when_due
           (client_with_token 1000)
           (world_at 2000 (always (reply 200 (Json (JObj token_body)))) NoFile)).
  - reflexivity.
  - cbn. lia.
Defined.

(** At exactly 60 seconds before expiry the token no longer satisfies
    now < expires_at - 60, and yet no refresh is made. *)
Lemma no_refresh_at_sixty_seconds :
  let c := client_with_token 1060 in
  let w := world_at 1000 (always (reply 204 (NotJson ""))) NoFile in
  truthy (access_token c) = true
  /\ expires_at c - clock w (ticks w) <= 60
  /\ ~ (clock w (ticks w) < expires_at c - 60)
  /\ calls RefreshAccessToken (events_since w (snd (snd (get_current_track (c, w))))) = 0%nat.
Proof.
  cbv zeta. split; [reflexivity|]. split; [cbn; lia|]. split; [cbn; lia|].
  vm_compute. reflexivity.
Qed.

Lemma json_is_str_get (d : dict) (k s : string) :
  json_is_str s (dict_get_or d k JNull) = true <-> dict_get d k = Some (JStr s).
Proof.
  unfold dict_get_or. destruct (dict_get d k) as [[]|]; cbn; split; intros H;
    try discriminate; try congruence.
  - apply String.eqb_eq in H. congruence.
  - injection H as ->. apply String.eqb_refl.
Qed.

(** The run of [refresh_access_token] on an answer other than 200 that
    carries a JSON object. *)
Lemma refresh_access_token_rejected (c : client) (w : world) (r : response) (d : dict) :
  network w (sent w) = Reply r ->
  status_code r <> 200 ->
  payload r = Json (JObj d) ->
  let w1 := set_trace (trace w ++ [Called RefreshAccessToken;
                                   Posted (RefreshToken (refresh_token c)) (client_id c) (client_secret c);
                                   Printed (ErrorRefreshingToken (Json (JObj d)))])
                      (set_sent (S (sent w)) w) in
  refresh_access_token (c, w)
  = if json_is_str "invalid_grant" (dict_get_or d "error" JNull)
    then (_ <- (in_world (debug_print RefreshTokenInvalid) ;; start_authentication) ;; ret false)
           (c, w1)
    else (Ok false, (c, w1)).
Proof.
  intros Hnet Hstatus Hbody w1. subst w1.
  apply Z.eqb_neq in Hstatus.
  unfold refresh_access_token, requests_post, request.
  unfold bind at 1 2 3 4 5 6 7. unfold in_world, emit, self_get, debug_print.
  cbn [fst snd network sent set_trace trace]. rewrite Hnet. cbn [fst snd]. rewrite Hstatus.
  unfold bind at 1 2 3. unfold in_world, emit, lift_result, response_json. cbn [fst snd].
  rewrite Hbody. cbn [py_get fst snd set_trace set_sent trace].
  rewrite <- !app_assoc. cbn [app].
  unfold bind at 1.
  destruct (json_is_str "invalid_grant" (dict_get_or d "error" JNull)); reflexivity.
Qed.

(** An answer other than 200 whose body is not a JSON object: only the
    request and the log line are added before the exception leaves. *)
Lemma refresh_access_token_no_error_object (c : client) (w : world) (r : response) :
  network w (sent w) = Reply r ->
  status_code r <> 200 ->
  (forall d, payload r <> Json (JObj d)) ->
  calls StartAuthentication (events_since w (snd (snd (refresh_access_token (c, w))))) = 0%nat.
Proof.
  intros Hnet Hstatus Hbody. apply Z.eqb_neq in Hstatus.
  unfold refresh_access_token. run_monad. rewrite Hnet. cbn. rewrite Hstatus. cbn.
  destruct (payload r) as [text|[| | | | |d]]; cbn;
    try (erewrite events_since_app; [|cbn; rewrite <- !app_assoc; reflexivity]; reflexivity).
  exfalso. apply (Hbody d). reflexivity.
Qed.

(** C2. For every answer other than 200 to the request of
    refresh_access_token(): when its JSON error field is "invalid_grant",
    start_authentication() is called exactly once and the function returns
    false; for any other error code, or none, start_authentication() is not
    called, and the function returns false whenever the body is a JSON
    object. *)
Theorem refresh_reauthenticates_on_invalid_grant_only
        (c : client) (w : world) (r : response) :
  network w (sent w) = Reply r ->
  status_code r <> 200 ->
  let out := refresh_access_token (c, w) in
  let news := events_since w (snd (snd out)) in
  (forall d, payload r = Json (JObj d) -> fst out = Ok false)
  /\ (forall d, payload r = Json (JObj d) ->
                dict_get d "error" = Some (JStr "invalid_grant") ->
                calls StartAuthentication news = 1%nat)
  /\ ((forall d, payload r = Json (JObj d) ->
                 dict_get d "error" <> Some (JStr "invalid_grant")) ->
      calls StartAuthentication news = 0%nat).
Proof.
  intros Hnet Hstatus out news. subst out news.
  destruct (payload r) as [text|j] eqn:Hbody.
  { split; [discriminate|]. split; [discriminate|]. intros _.
    apply (refresh_access_token_no_error_object c w r Hnet Hstatus).
    intros d. rewrite Hbody. discriminate. }
  destruct j as [| | | | |d];
    try (split; [discriminate|]; split; [discriminate|]; intros _;
         apply (refresh_access_token_no_error_object c w r Hnet Hstatus);
         intros d; rewrite Hbody; discriminate).
  rewrite (refresh_access_token_rejected c w r d Hnet Hstatus Hbody). cbv zeta.
  destruct (json_is_str "invalid_grant" (dict_get_or d "error" JNull)) eqn:Herr.
  - apply json_is_str_get in Herr.
    unfold start_authentication, webbrowser_open. run_monad.
    destruct (browser w); cbn;
      (split; [reflexivity|]);
      (split; [intros d' _ _|intros Hno; destruct (Hno d eq_refl Herr)]);
      (erewrite events_since_app; [|cbn; rewrite <- !app_assoc; reflexivity]);
      reflexivity.
  - cbn [fst snd]. split; [reflexivity|].
    split; [intros d' Hd' Hyes; injection Hd' as <-;
            apply json_is_str_get in Hyes; congruence|intros _].
    erewrite events_since_app; [|cbn [trace set_trace set_sent]; reflexivity].
    reflexivity.
Qed.

Lemma refresh_reauthenticates_on_invalid_grant_only_witness :
  let c := client_with_token 0 in
  let w := world_at 2000 (always (reply 400 (Json (JObj invalid_grant_body)))) NoFile in
  let out := refresh_access_token (c, w) in
  fst out = Ok false
  /\ calls StartAuthentication (events_since w (snd (snd out))) = 1%nat.
Proof.
  cbv zeta.
  destruct (refresh_reauthenticates_on_invalid_grant_only
              (client_with_token 0)
              (world_at 2000 (always (reply 400 (Json (JObj invalid_grant_body)))) NoFile)
              {| status_code := 400; payload := Json (JObj invalid_grant_body) |})
    as (Hfalse & Honce & _).
  - reflexivity.
  - cbn. lia.
  - split; [exact (Hfalse invalid_grant_body eq_refl)|].
    exact (Honce invalid_grant_body eq_refl eq_refl).
Defined.

(** The run of the fetch, by the answer of the resource endpoint. *)
Lemma fetch_current_track_result (c : client) (w : world) :
  fst (fetch_current_track (c, w))
  = match network w (sent w) with
    | Fails => Ok JNull
    | Reply r =>
        if status_code r =? 200 then
          match payload r with Json j => Ok j | NotJson _ => Ok JNull end
        else if status_code r =? 204 then Ok (JObj [("is_playing", JBool false)])
        else Ok JNull
    end.
Proof.
  unfold fetch_current_track, try_except, request.
  unfold bind, in_world, emit, self_get, debug_print, lift_result, response_json, ret, emit.
  cbn [fst snd network sent set_trace].
  destruct (network w (sent w)) as [r|]; cbn [fst snd]; [|reflexivity].
  destruct (status_code r =? 200).
  - destruct (payload r); reflexivity.
  - destruct (status_code r =? 204); reflexivity.
Qed.

(** C6. With a valid token, an HTTP 204 from the resource endpoint makes
    get_current_track() return exactly {is_playing: false}, which is also
    what it returns for a 200 answer with the body {is_playing: false}, and
    the formatter maps that value to absent. *)
Theorem no_content_is_not_playing (c : client) (w : world) (r : response) :
  truthy (access_token c) = true ->
  clock w (ticks w) < expires_at c - 60 ->
  network w (sent w) = Reply r ->
  (status_code r = 204
   \/ (status_code r = 200 /\ payload r = Json (JObj [("is_playing", JBool false)]))) ->
  fst (get_current_track (c, w)) = Ok (JObj [("is_playing", JBool false)])
  /\ format_track_info (JObj [("is_playing", JBool false)]) = Ok None.
Proof.
  intros Htok Hnow Hnet Hstatus. split; [|reflexivity].
  rewrite get_current_track_fresh by (assumption || lia).
  rewrite fetch_current_track_result. cbn [network sent set_ticks set_trace].
  rewrite Hnet. destruct Hstatus as [H204|[H200 Hbody]].
  - rewrite H204. reflexivity.
  - rewrite H200, Hbody. reflexivity.
Qed.

Lemma no_content_is_not_playing_witness :
  let c := client_with_token 5000 in
  let w := world_at 1000 (always (reply 204 (NotJson ""))) NoFile in
  fst (get_current_track (c, w)) = Ok (JObj [("is_playing", JBool false)])
  /\ format_track_info (JObj [("is_playing", JBool false)]) = Ok None.
Proof.
  apply (no_content_is_not_playing
           (client_with_token 5000)
           (world_at 1000 (always (reply 204 (NotJson ""))) NoFile)
           {| status_code := 204; payload := NotJson "" |}).
  - reflexivity.
  - cbn. lia.
  - reflexivity.
  - left. reflexivity.
Defined.

(** ** Failures *)

Lemma refresh_access_token_network_failure (c : client) (w : world) :
  network w (sent w) = Fails ->
  fst (refresh_access_token (c, w)) = Raise RequestException.
Proof.
  intros Hnet. unfold refresh_access_token. run_monad. rewrite Hnet. reflexivity.
Qed.

Lemma refresh_access_token_not_json (c : client) (w : world) (r : response) (text : string) :
  network w (sent w) = Reply r -> payload r = NotJson text ->
  fst (refresh_access_token (c, w)) = Raise JSONDecodeError.
Proof.
  intros Hnet Hbody. unfold refresh_access_token. run_monad. rewrite Hnet. cbn.
  destruct (status_code r =? 200); cbn; rewrite Hbody; reflexivity.
Qed.

Lemma get_current_track_without_token (c : client) (w : world) :
  truthy (access_token c) = false ->
  get_current_track (c, w)
  = (refreshed <- refresh_access_token ;;
     if negb refreshed then ret JNull else fetch_current_track)
      (c, set_trace (trace w ++ [Called GetCurrentTrack]) w).
Proof.
  intros Htok. unfold get_current_track, token_needs_refresh.
  unfold bind at 1 2 3. unfold in_world, emit, self_get, ret.
  cbn [fst snd]. rewrite Htok. reflexivity.
Qed.

(** A handler whose [except] branch only prints ends normally. *)
Lemma try_except_print_returns {A} (m : M session unit) (l : exn -> log_line) (a : A) (g : session) :
  fst ((try_except m (fun e => in_session (debug_print (l e))) ;; ret a) g) = Ok a.
Proof.
  unfold bind, try_except. destruct (m g) as [[[]|e] g']; reflexivity.
Qed.

(** With the network down, [refresh_access_token()] does not return false:
    the exception of the request leaves the call, and leaves
    [get_current_track()] too. *)
Lemma refresh_raises_when_network_is_down :
  let c := new_client (JStr "id") (JStr "secret") (JStr "old") in
  fst (refresh_access_token (c, network_down)) = Raise RequestException
  /\ fst (refresh_access_token (c, network_down)) <> Ok false
  /\ fst (get_current_track (c, network_down)) = Raise RequestException
  /\ fst (get_current_track (c, network_down)) <> Ok JNull.
Proof.
  cbv zeta. repeat split; try (vm_compute; reflexivity); vm_compute; discriminate.
Qed.

(** ** The token state *)

Lemma in_world_save_refresh_token (token : json) (c : client) (w : world) :
  exists w', in_world (save_refresh_token token) (c, w) = (Ok tt, (c, w')).
Proof.
  unfold in_world. cbn [fst snd].
  pose proof (save_refresh_token_returns token w) as H.
  destruct (save_refresh_token token w) as [r w']. cbn in H. subst r. eauto.
Qed.










(** * More of the script *)

(** ** TrackFormatter: missing keys, wrong shapes, the time *)

(** X1. A playing payload without [item] is rendered with the defaults: no
    artists, "Unknown Track", "Unknown Album", a duration of 0:00 and no
    listen segment; only the progress is taken from the payload. *)
Theorem format_track_info_defaults (d : dict) (progress : Z) :
  d <> [] -> playing d = true ->
  dict_get d "item" = None ->
  as_number (dict_get_or d "progress_ms" (JNum 0)) = Some progress ->
  format_track_info (JObj d)
  = Ok (Some (note_prefix ++ "Now playing:  - Unknown Track | (from Unknown Album) | Progress: "
              ++ minutes_seconds progress ++ "/0:00 | ")).
Proof.
  intros Hne Hplay Hitem Hprogress.
  rewrite (format_track_info_playing d
             {| t_artists := []; t_name := JStr "Unknown Track";
                t_album := JStr "Unknown Album"; t_url := JStr "";
                t_progress_ms := progress; t_duration_ms := 0 |} Hne Hplay).
  - reflexivity.
  - unfold read_track. unfold dict_get_or at 1. rewrite Hitem. cbn. rewrite Hprogress.
    reflexivity.
Qed.

Lemma format_track_info_defaults_witness :
  format_track_info (JObj [("is_playing", JBool true)])
  = Ok (Some (note_prefix ++ "Now playing:  - Unknown Track | (from Unknown Album) | Progress: "
              ++ minutes_seconds 0 ++ "/0:00 | ")).
Proof.
  apply (format_track_info_defaults [("is_playing", JBool true)] 0);
    [discriminate|reflexivity|reflexivity|reflexivity].
Defined.

(** X2. A playing payload whose [item] is there but is not an object (null,
    as Spotify sends it when no track is known) makes the formatter raise
    AttributeError: the default of [get] only stands in for a missing key. *)
Theorem format_track_info_item_not_object (d : dict) (item : json) :
  d <> [] -> playing d = true ->
  dict_get d "item" = Some item -> as_dict item = None ->
  format_track_info (JObj d) = Raise AttributeError.
Proof.
  intros Hne Hplay Hitem Hshape. unfold format_track_info.
  replace (truthy (JObj d)) with true by (destruct d; [congruence|reflexivity]).
  cbn [negb py_get rbind]. unfold playing in Hplay. rewrite Hplay. cbn [negb].
  unfold dict_get_or at 1. rewrite Hitem.
  destruct item; try reflexivity. discriminate.
Qed.

Lemma format_track_info_item_not_object_witness :
  format_track_info (JObj no_item_example) = Raise AttributeError.
Proof.
  apply (format_track_info_item_not_object no_item_example JNull);
    [discriminate|reflexivity|reflexivity|reflexivity].
Defined.

Lemma prefix_app (p s : string) : prefix p (p ++ s) = true.
Proof.
  induction p as [|a p IH]; cbn.
  - destruct s; reflexivity.
  - destruct (ascii_dec a a); [exact IH|congruence].
Qed.

(** A line that the formatter returns, whatever the payload. *)
Lemma format_track_info_line (v : json) (line : string) :
  format_track_info v = Ok (Some line) ->
  prefix (note_prefix ++ "Now playing: ") line = true
  /\ line <> ""
  /\ truthy v = true
  /\ exists d, v = JObj d /\ playing d = true.
Proof.
  unfold format_track_info.
  destruct (truthy v) eqn:Hv; cbn [negb]; [|discriminate].
  destruct v as [| | | | |d]; cbn [py_get rbind]; try discriminate.
  unfold playing.
  destruct (truthy (dict_get_or d "is_playing" (JBool true))) eqn:Hplay;
    cbn [negb]; [|discriminate].
  intros H.
  repeat match type of H with
         | rbind ?r _ = _ => destruct r; cbn [rbind] in H; [|discriminate H]
         end.
  injection H as <-.
  split; [|split; [discriminate|split; [reflexivity|exists d; auto]]].
  apply (prefix_app (note_prefix ++ "Now playing: ")).
Qed.

(** X3. Whatever the payload, a line that [format_track_info] returns
    starts with the note sign and "Now playing: "; it is never empty, and it
    is returned only for a truthy value whose is_playing is not falsy. *)
Theorem format_track_info_line_shape (v : json) (line : string) :
  format_track_info v = Ok (Some line) ->
  prefix (note_prefix ++ "Now playing: ") line = true
  /\ line <> ""
  /\ truthy v = true
  /\ exists d, v = JObj d /\ playing d = true.
Proof. apply format_track_info_line. Qed.

Lemma format_track_info_line_shape_witness :
  exists line,
    format_track_info spec_example = Ok (Some line)
    /\ prefix (note_prefix ++ "Now playing: ") line = true /\ line <> "".
Proof.
  eexists. split; [vm_compute; reflexivity|].
  destruct (format_track_info_line_shape spec_example _ eq_refl) as (Hp & Hne & _).
  split; [exact Hp|exact Hne].
Defined.

Lemma string_length_app (a b : string) :
  String.length (a ++ b) = (String.length a + String.length b)%nat.
Proof. induction a as [|x a IH]; cbn; [reflexivity|]. rewrite IH. reflexivity. Qed.

Lemma string_app_inv (x x' y y' : string) :
  String.length y = String.length y' -> x ++ y = x' ++ y' -> x = x' /\ y = y'.
Proof.
  revert x'. induction x as [|a x IH]; intros [|a' x'] Hlen H; cbn in H.
  - auto.
  - subst y. cbn in Hlen. rewrite string_length_app in Hlen. lia.
  - subst y'. cbn in Hlen. rewrite string_length_app in Hlen. lia.
  - injection H as -> H. destruct (IH x' Hlen H) as [-> ->]. auto.
Qed.

Lemma py_str_int_inj (a b : Z) : py_str_int a = py_str_int b -> a = b.
Proof.
  unfold py_str_int. intros H.
  assert (Hnot : forall z, Z.to_int z <> Decimal.Pos Decimal.Nil
                           /\ Z.to_int z <> Decimal.Neg Decimal.Nil).
  { intros [|p|p]; cbn; split; try discriminate;
      intros [= E]; exact (DecimalPos.Unsigned.to_uint_nonnil p E). }
  apply DecimalZ.to_int_inj.
  assert (E : Some (Z.to_int a) = Some (Z.to_int b)).
  { rewrite <- (NilZero.isi (Z.to_int a)), <- (NilZero.isi (Z.to_int b)) by apply Hnot.
    rewrite H. reflexivity. }
  congruence.
Qed.

Lemma two_digits_inj (s s' : Z) :
  0 <= s < 60 -> 0 <= s' < 60 -> two_digits s = two_digits s' -> s = s'.
Proof.
  intros Hs Hs' H.
  assert (Hall : forallb (fun n => forallb (fun m =>
                   implb (String.eqb (two_digits (Z.of_nat n)) (two_digits (Z.of_nat m)))
                         (Nat.eqb n m)) (seq 0 60)) (seq 0 60) = true)
    by (vm_compute; reflexivity).
  rewrite forallb_forall in Hall.
  assert (Hin : In (Z.to_nat s) (seq 0 60)) by (apply in_seq; lia).
  assert (Hin' : In (Z.to_nat s') (seq 0 60)) by (apply in_seq; lia).
  specialize (Hall _ Hin). rewrite forallb_forall in Hall. specialize (Hall _ Hin').
  rewrite !Z2Nat.id in Hall by lia.
  rewrite H, String.eqb_refl in Hall. cbn in Hall.
  apply Nat.eqb_eq in Hall. lia.
Qed.

(** X4. Two positions are rendered alike exactly when they lie in the same
    whole second: the text of ms_to_minutes_seconds tells the seconds
    elapsed, and nothing below a second. *)
Theorem ms_to_minutes_seconds_same_second (a b : Z) :
  ms_to_minutes_seconds (JNum a) = ms_to_minutes_seconds (JNum b) <-> a / 1000 = b / 1000.
Proof.
  rewrite (ms_to_minutes_seconds_int (JNum a) a eq_refl),
          (ms_to_minutes_seconds_int (JNum b) b eq_refl).
  unfold minutes_seconds. split.
  - intros [= H].
    apply string_app_inv in H as [Hm Hs]; [|reflexivity].
    apply py_str_int_inj in Hm. injection Hs as Hs1 Hs2.
    assert (Hsec : (a / 1000) mod 60 = (b / 1000) mod 60).
    { apply two_digits_inj; try (apply Z.mod_pos_bound; lia).
      unfold two_digits. rewrite Hs1, Hs2. reflexivity. }
    rewrite (Z.div_mod (a / 1000) 60), (Z.div_mod (b / 1000) 60) by lia.
    rewrite Hm, Hsec. reflexivity.
  - intros ->. reflexivity.
Qed.

(** ** CredentialStore: what is written, and what is read back *)

(** X5. When the credentials file is missing, is not JSON, or holds null, a
    boolean or a number, [save_refresh_token] writes nothing at all: the
    cache file is not updated either, and one error line is printed. *)
Theorem save_refresh_token_writes_nothing_without_credentials (w : world) (token : json) :
  (credentials_file w = NoFile \/ credentials_file w = NotADocument
   \/ exists text j, credentials_file w = Document text j /\ scalar j = true) ->
  let w' := snd (save_refresh_token token w) in
  credentials_file w' = credentials_file w
  /\ cache_file w' = cache_file w
  /\ exists e, trace w' = (trace w ++ [Printed (ErrorSavingRefreshToken e)])%list.
Proof.
  intros H. unfold save_refresh_token. run_monad. unfold load_credentials_file.
  destruct H as [H|[H|(text & j & H & Hj)]]; rewrite H; cbn.
  - eauto.
  - eauto.
  - destruct j; try discriminate; cbn; eauto.
Qed.

Lemma save_refresh_token_writes_nothing_without_credentials_witness :
  let w := world_at 0 (always Fails) NoFile in
  let w' := snd (save_refresh_token (JStr "new") w) in
  credentials_file w' = credentials_file w
  /\ cache_file w' = cache_file w
  /\ exists e, trace w' = (trace w ++ [Printed (ErrorSavingRefreshToken e)])%list.
Proof.
  apply (save_refresh_token_writes_nothing_without_credentials
           (world_at 0 (always Fails) NoFile) (JStr "new")).
  left. reflexivity.
Defined.

Lemma dict_set_twice (d : dict) (k : string) (v v' : json) :
  dict_set (dict_set d k v) k v' = dict_set d k v'.
Proof.
  induction d as [|[k0 v0] d IH]; cbn.
  - rewrite String.eqb_refl. reflexivity.
  - destruct (String.eqb k0 k) eqn:E; cbn; rewrite E; [reflexivity|].
    rewrite IH. reflexivity.
Qed.

Lemma dict_set_mem (d : dict) (k : string) (v : json) : dict_mem (dict_set d k v) k = true.
Proof. unfold dict_mem. rewrite dict_set_get_same. reflexivity. Qed.

(** The two files after a run of [save_refresh_token]. *)
Lemma save_refresh_token_files (w : world) (token : json) :
  let w' := snd (save_refresh_token token w) in
  (credentials_file w', cache_file w')
  = match credentials_file w with
    | Document text j =>
        match py_contains "refresh_token" j with
        | Ok true =>
            match py_setitem j "refresh_token" token with
            | Ok j' => (dumped j', Some (match token with JStr t => t | _ => "" end))
            | Raise _ => (Document text j, cache_file w)
            end
        | Ok false => (Document text j, Some (match token with JStr t => t | _ => "" end))
        | Raise _ => (Document text j, cache_file w)
        end
    | other => (other, cache_file w)
    end.
Proof.
  unfold save_refresh_token. run_monad. unfold load_credentials_file, write_cache_file.
  destruct (credentials_file w) as [| |text j] eqn:Hfile; cbn; rewrite ?Hfile; try reflexivity.
  destruct (py_contains "refresh_token" j) as [[|]|e]; cbn; rewrite ?Hfile; try reflexivity.
  - destruct (py_setitem j "refresh_token" token); cbn; rewrite ?Hfile; try reflexivity.
    destruct token; reflexivity.
  - destruct token; cbn; rewrite ?Hfile; reflexivity.
Qed.

(** X6. Saving one token and then another leaves both files as saving the
    second alone does: the last token saved is the one kept. *)
Theorem save_refresh_token_last_wins (w : world) (first second : json) :
  let w1 := snd (save_refresh_token first w) in
  let w12 := snd (save_refresh_token second w1) in
  let w2 := snd (save_refresh_token second w) in
  credentials_file w12 = credentials_file w2 /\ cache_file w12 = cache_file w2.
Proof.
  cbv zeta.
  pose proof (save_refresh_token_files w first) as H1.
  pose proof (save_refresh_token_files (snd (save_refresh_token first w)) second) as H12.
  pose proof (save_refresh_token_files w second) as H2.
  cbv zeta in H1, H12, H2.
  set (w1 := snd (save_refresh_token first w)) in *.
  set (w12 := snd (save_refresh_token second w1)) in *.
  set (w2 := snd (save_refresh_token second w)) in *.
  clearbody w1 w12 w2.
  assert (E : (credentials_file w12, cache_file w12) = (credentials_file w2, cache_file w2)).
  { rewrite H12, H2. clear H12 H2.
    destruct (credentials_file w) as [| |text j].
    - injection H1 as -> ->. reflexivity.
    - injection H1 as -> ->. reflexivity.
    - destruct j as [| | |s|l|d]; cbn in *.
      + injection H1 as -> ->. reflexivity.
      + injection H1 as -> ->. reflexivity.
      + injection H1 as -> ->. reflexivity.
      + destruct (is_infix "refresh_token" s) eqn:Hs; injection H1 as -> ->;
          cbn; rewrite Hs; reflexivity.
      + destruct (existsb (json_is_str "refresh_token") l) eqn:Hl; injection H1 as -> ->;
          cbn; rewrite Hl; reflexivity.
      + destruct (dict_mem d "refresh_token") eqn:Hd; injection H1 as -> ->; cbn.
        * rewrite dict_set_mem, dict_set_twice. reflexivity.
        * rewrite Hd. reflexivity. }
  injection E as -> ->. auto.
Qed.

(** X7. [save_refresh_token] never raises; it sends no request, reads no
    clock, and prints at most one line, the error it met. *)
Theorem save_refresh_token_is_quiet (w : world) (token : json) :
  let out := save_refresh_token token w in
  fst out = Ok tt
  /\ sent (snd out) = sent w /\ ticks (snd out) = ticks w
  /\ (trace (snd out) = trace w
      \/ exists e, trace (snd out) = (trace w ++ [Printed (ErrorSavingRefreshToken e)])%list).
Proof.
  unfold save_refresh_token. run_monad. unfold load_credentials_file, write_cache_file.
  destruct (credentials_file w) as [| |text j]; cbn; eauto 10.
  destruct (py_contains "refresh_token" j) as [[|]|e]; cbn; eauto 10.
  - destruct (py_setitem j "refresh_token" token); cbn; eauto 10.
    destruct token; cbn; eauto 10.
  - destruct token; cbn; eauto 10.
Qed.

(** *** [load_credentials] *)






(** [load_credentials] looks at the two files only. *)
Lemma load_credentials_files (w w' : world) :
  credentials_file w' = credentials_file w -> cache_file w' = cache_file w ->
  load_credentials w' = load_credentials w.
Proof.
  intros Hc Hk. unfold load_credentials, load_credentials_try, load_credentials_file.
  rewrite Hc, Hk. destruct (credentials_file w); reflexivity.
Qed.

(** The run of [load_credentials] on a credentials object with its two
    required fields. *)
Lemma load_credentials_object (w : world) {bytes : string} (d : dict) (cid csecret : json) :
  credentials_file w = Document bytes (JObj d) ->
  dict_get d "client_id" = Some cid -> truthy cid = true ->
  dict_get d "client_secret" = Some csecret -> truthy csecret = true ->
  load_credentials w
  = let stored := dict_get_or d "refresh_token" JNull in
    let rtoken :=
      if truthy stored then stored
      else match cache_file w with
           | Some text => JStr (py_strip (universal_newlines text))
           | None => stored
           end in
    if truthy rtoken then (Returned (cid, csecret, rtoken), [])
    else (Raised ValueError, [ErrorLoadingCredentials ValueError]).
Proof.
  intros Hfile Hid Hidt Hsec Hsect.
  unfold load_credentials, load_credentials_try, load_credentials_file.
  rewrite Hfile. cbn. rewrite Hid. cbn. rewrite Hsec. cbn. rewrite Hidt, Hsect. cbn.
  destruct (truthy (dict_get_or d "refresh_token" JNull)) eqn:Hstored; cbn.
  - rewrite Hstored. reflexivity.
  - destruct (cache_file w) as [text|]; cbn.
    + destruct (String.eqb (py_strip (universal_newlines text)) ""); reflexivity.
    + rewrite Hstored. reflexivity.
Qed.



(** X9. A refresh_token held by the credentials file wins: when that file
    has the two required fields and a non-empty refresh_token,
    [load_credentials] returns these three and does not look at the cache
    file. *)
Theorem load_credentials_prefers_credentials_file
        (w : world) {bytes : string} (d : dict) (cid csecret rtoken : json)
        (cache : option string) :
  credentials_file w = Document bytes (JObj d) ->
  dict_get d "client_id" = Some cid -> truthy cid = true ->
  dict_get d "client_secret" = Some csecret -> truthy csecret = true ->
  dict_get d "refresh_token" = Some rtoken -> truthy rtoken = true ->
  load_credentials w = (Returned (cid, csecret, rtoken), [])
  /\ load_credentials (set_cache_file cache w) = load_credentials w.
Proof.
  intros Hfile Hid Hidt Hsec Hsect Hrt Hrtt.
  assert (H : forall w0, credentials_file w0 = Document bytes (JObj d) ->
                         load_credentials w0 = (Returned (cid, csecret, rtoken), [])).
  { intros w0 Hw0. rewrite (load_credentials_object w0 d cid csecret Hw0) by assumption.
    cbv zeta. unfold dict_get_or. rewrite Hrt, Hrtt, Hrtt. reflexivity. }
  split; [apply H; exact Hfile|].
  rewrite (H w Hfile). apply H. exact Hfile.
Qed.

Lemma load_credentials_prefers_credentials_file_witness :
  let w := world_at 0 (always Fails) (dumped (JObj stored_credentials)) in
  load_credentials w = (Returned (JStr "id", JStr "secret", JStr "old"), [])
  /\ load_credentials (set_cache_file (Some "other") w) = load_credentials w.
Proof.
  apply (load_credentials_prefers_credentials_file
           (world_at 0 (always Fails) (dumped (JObj stored_credentials)))
           (bytes := json_dumps (JObj stored_credentials))
           stored_credentials (JStr "id") (JStr "secret") (JStr "old") (Some "other"));
    reflexivity.
Defined.

(** X10. Without a usable refresh_token in the credentials file (missing,
    null or empty), the token is the text of the cache file with the
    whitespace around it removed; when there is no cache file, or nothing is
    left of its text, [load_credentials] prints the error and raises
    ValueError. *)
Theorem load_credentials_falls_back_to_cache
        (w : world) {bytes : string} (d : dict) (cid csecret : json) :
  credentials_file w = Document bytes (JObj d) ->
  dict_get d "client_id" = Some cid -> truthy cid = true ->
  dict_get d "client_secret" = Some csecret -> truthy csecret = true ->
  truthy (dict_get_or d "refresh_token" JNull) = false ->
  (forall text, cache_file w = Some text ->
                py_strip (universal_newlines text) <> "" ->
                load_credentials w
                = (Returned (cid, csecret, JStr (py_strip (universal_newlines text))), []))
  /\ ((cache_file w = None
       \/ exists text, cache_file w = Some text /\ py_strip (universal_newlines text) = "") ->
      load_credentials w = (Raised ValueError, [ErrorLoadingCredentials ValueError])).
Proof.
  intros Hfile Hid Hidt Hsec Hsect Hstored.
  rewrite (load_credentials_object w d cid csecret Hfile) by assumption.
  cbv zeta. rewrite Hstored. split.
  - intros text Hcache Hleft. rewrite Hcache. cbn [truthy].
    destruct (String.eqb_spec (py_strip (universal_newlines text)) ""); [contradiction|].
    reflexivity.
  - intros [Hnone|(text & Hcache & Hnothing)].
    + rewrite Hnone, Hstored. reflexivity.
    + rewrite Hcache, Hnothing. reflexivity.
Qed.

Lemma load_credentials_falls_back_to_cache_witness :
  let w := set_cache_file (Some " AQD-9x_Zk ")
             (world_at 0 (always Fails) (dumped (JObj bare_credentials))) in
  load_credentials w = (Returned (JStr "id", JStr "secret", JStr "AQD-9x_Zk"), []).
Proof.
  destruct (load_credentials_falls_back_to_cache
              (set_cache_file (Some " AQD-9x_Zk ")
                 (world_at 0 (always Fails) (dumped (JObj bare_credentials))))
              (bytes := json_dumps (JObj bare_credentials))
              bare_credentials (JStr "id") (JStr "secret")
              eq_refl eq_refl eq_refl eq_refl eq_refl eq_refl) as [Hcache _].
  cbv zeta. apply (Hcache " AQD-9x_Zk " eq_refl). vm_compute. discriminate.
Defined.

(** The two ways [load_credentials] ends. *)
Lemma load_credentials_outcome (w : world) :
  match load_credentials w with
  | (Returned (cid, csecret, rtoken), printed) =>
      printed = []
      /\ truthy cid = true /\ truthy csecret = true /\ truthy rtoken = true
  | (Raised e, printed) => printed = [ErrorLoadingCredentials e]
  end.
Proof.
  unfold load_credentials, load_credentials_try.
  destruct (fst (load_credentials_file w)) as [credentials|e]; cbn; [|reflexivity].
  destruct (py_getitem credentials "client_id") as [cid|e]; cbn; [|reflexivity].
  destruct (py_getitem credentials "client_secret") as [csecret|e]; cbn; [|reflexivity].
  destruct (py_get credentials "refresh_token" JNull) as [rtoken|e]; cbn; [|reflexivity].
  destruct (truthy cid) eqn:Hcid; cbn; [|reflexivity].
  destruct (truthy csecret) eqn:Hcsecret; cbn; [|reflexivity].
  match goal with
  | |- context [negb (truthy ?v)] => destruct (truthy v) eqn:Hrtoken
  end; cbn; auto.
Qed.

(** X11. [load_credentials] returns only complete credentials: the three
    values it returns are truthy (no empty or null client_id, client_secret
    or refresh_token), and it prints nothing then; when it raises, it has
    printed exactly one line, with the exception it raises. *)
Theorem load_credentials_returns_complete (w : world) :
  match load_credentials w with
  | (Returned (cid, csecret, rtoken), printed) =>
      printed = []
      /\ truthy cid = true /\ truthy csecret = true /\ truthy rtoken = true
  | (Raised e, printed) => printed = [ErrorLoadingCredentials e]
  end.
Proof. apply load_credentials_outcome. Qed.

(** X12. A credentials object without client_id, or with client_id but
    without client_secret, makes [load_credentials] raise KeyError for that
    key, whatever the refresh token and the cache file are. *)
Theorem load_credentials_missing_key (w : world) {bytes : string} (d : dict) :
  credentials_file w = Document bytes (JObj d) ->
  (dict_get d "client_id" = None ->
   load_credentials w
   = (Raised (Std (KeyError "client_id")),
      [ErrorLoadingCredentials (Std (KeyError "client_id"))]))
  /\ (dict_get d "client_id" <> None -> dict_get d "client_secret" = None ->
      load_credentials w
      = (Raised (Std (KeyError "client_secret")),
         [ErrorLoadingCredentials (Std (KeyError "client_secret"))])).
Proof.
  intros Hfile. unfold load_credentials, load_credentials_try, load_credentials_file.
  rewrite Hfile. cbn. split.
  - intros ->. reflexivity.
  - intros Hid Hsec. destruct (dict_get d "client_id"); [|contradiction]. cbn.
    rewrite Hsec. reflexivity.
Qed.

Lemma load_credentials_missing_key_witness :
  load_credentials (world_at 0 (always Fails) (dumped (JObj [("client_id", JStr "id")])))
  = (Raised (Std (KeyError "client_secret")),
     [ErrorLoadingCredentials (Std (KeyError "client_secret"))]).
Proof.
  destruct (load_credentials_missing_key
              (world_at 0 (always Fails) (dumped (JObj [("client_id", JStr "id")])))
              (bytes := json_dumps (JObj [("client_id", JStr "id")]))
              [("client_id", JStr "id")] eq_refl) as [_ H].
  apply H; [discriminate|reflexivity].
Defined.

(** ** TokenManager: requests, identity, the refresh token *)

Lemma adds_after_post {A} (P : event -> bool) (g : grant) (k : response -> M state A) :
  (forall r, adds_only P (k r)) ->
  forall c w, exists rest,
    trace (snd (snd ((response <- requests_post g ;; k response) (c, w))))
    = (trace w ++ Posted g (client_id c) (client_secret c) :: rest)%list
    /\ forallb P rest = true.
Proof.
  intros Hk c w. unfold requests_post, request.
  unfold bind, in_world, emit, self_get. cbn [fst snd network sent set_trace].
  destruct (network w (sent w)) as [r|].
  - destruct (Hk r (c, set_sent (S (sent w))
                         (set_trace (trace w ++ [Posted g (client_id c) (client_secret c)]) w)))
      as (rest & E & F).
    exists rest. split; [|exact F].
    unfold trace_of, state_traced in E. cbn in E. rewrite E, <- app_assoc. reflexivity.
  - exists []. cbn. auto.
Qed.

Lemma posts_none (l : list event) : forallb no_request l = true -> posts l = 0%nat.
Proof.
  unfold posts, no_request. induction l as [|e l IH]; cbn; [reflexivity|].
  intros H. apply andb_prop in H as [He Hl]. apply andb_prop in He as [He _].
  destruct (is_post e); [discriminate|]. auto.
Qed.

Lemma fetches_none (l : list event) : forallb no_request l = true -> fetches l = 0%nat.
Proof.
  unfold fetches, no_request. induction l as [|e l IH]; cbn; [reflexivity|].
  intros H. apply andb_prop in H as [He Hl]. apply andb_prop in He as [_ He].
  destruct (is_fetch e); [discriminate|]. auto.
Qed.


Section Stays.
Context {S : Type} (R : S -> S -> Prop).
Hypothesis R_refl : forall s, R s s.
Hypothesis R_trans : forall s1 s2 s3, R s1 s2 -> R s2 s3 -> R s1 s3.

Lemma stays_ret {A} (a : A) : stays R (ret a).
Proof. intros s. apply R_refl. Qed.

Lemma stays_lift_result {A} (r : result A) : stays R (lift_result r).
Proof. intros s. apply R_refl. Qed.

Lemma stays_bind {A B} (m : M S A) (k : A -> M S B) :
  stays R m -> (forall a, stays R (k a)) -> stays R (bind m k).
Proof.
  intros Hm Hk s. unfold bind. specialize (Hm s).
  destruct (m s) as [[a|e] s']; cbn [snd] in *; [|exact Hm].
  eapply R_trans; [exact Hm|apply Hk].
Qed.

Lemma stays_try_except {A} (m : M S A) (h : exn -> M S A) :
  stays R m -> (forall e, stays R (h e)) -> stays R (try_except m h).
Proof.
  intros Hm Hh s. unfold try_except. specialize (Hm s).
  destruct (m s) as [[a|e] s']; cbn [snd] in *; [exact Hm|].
  eapply R_trans; [exact Hm|apply Hh].
Qed.
End Stays.

Lemma same_client_refl (s : state) : same_client s s.
Proof. split; reflexivity. Qed.

Lemma same_client_trans (s1 s2 s3 : state) :
  same_client s1 s2 -> same_client s2 s3 -> same_client s1 s3.
Proof. intros [H1 H2] [H3 H4]. split; congruence. Qed.

Lemma same_spotify_refl (g : session) : same_spotify g g.
Proof. unfold same_spotify. destruct (fst g); [split; reflexivity|exact I]. Qed.

Lemma same_spotify_trans (g1 g2 g3 : session) :
  same_spotify g1 g2 -> same_spotify g2 g3 -> same_spotify g1 g3.
Proof.
  unfold same_spotify. destruct (fst g1), (fst g2), (fst g3); try tauto.
  intros [H1 H2] [H3 H4]. split; congruence.
Qed.

Lemma same_client_in_world {A} (m : M world A) : stays same_client (in_world m).
Proof.
  intros [c w]. unfold in_world. cbn [fst snd]. destruct (m w). split; reflexivity.
Qed.

Lemma same_spotify_in_session {A} (m : M world A) : stays same_spotify (in_session m).
Proof.
  intros [c w]. unfold in_session, same_spotify. cbn [fst snd]. destruct (m w). cbn [fst snd].
  destruct c; [split; reflexivity|exact I].
Qed.

Lemma same_spotify_on_spotify {A} (m : M state A) :
  stays same_client m -> stays same_spotify (on_spotify m).
Proof.
  intros Hm [[c|] w]; unfold on_spotify, same_spotify; cbn [fst snd]; [|exact I].
  specialize (Hm (c, w)). destruct (m (c, w)) as [r [c' w']]. exact Hm.
Qed.

(** One proof step for a goal [stays same_client m]. *)
Ltac same_client_step :=
  match goal with
  | |- stays _ (bind _ _) => apply (stays_bind _ same_client_trans); [|intros]
  | |- stays _ (try_except _ _) => apply (stays_try_except _ same_client_trans); [|intros]
  | |- stays _ (ret _) => apply (stays_ret _ same_client_refl)
  | |- stays _ (lift_result _) => apply (stays_lift_result _ same_client_refl)
  | |- stays _ (in_world _) => apply same_client_in_world
  | |- stays _ (self_get _) => intros ?; apply same_client_refl
  | |- stays _ (set_access_token _) => intros ?; split; reflexivity
  | |- stays _ (set_refresh_token _) => intros ?; split; reflexivity
  | |- stays _ (set_expires_at _) => intros ?; split; reflexivity
  | |- stays _ (if ?b then _ else _) => destruct b
  end.

Lemma same_client_start_authentication : stays same_client start_authentication.
Proof. unfold start_authentication. repeat same_client_step. Qed.

Lemma same_client_refresh_access_token : stays same_client refresh_access_token.
Proof.
  unfold refresh_access_token, requests_post.
  repeat (same_client_step || apply same_client_start_authentication).
Qed.

Lemma same_client_exchange_code_for_token (code : json) :
  stays same_client (exchange_code_for_token code).
Proof. unfold exchange_code_for_token, requests_post. repeat same_client_step. Qed.

Lemma same_client_get_current_track : stays same_client get_current_track.
Proof.
  unfold get_current_track, token_needs_refresh, fetch_current_track.
  repeat (same_client_step || apply same_client_refresh_access_token).
Qed.

(** X13. No method ever changes client_id or client_secret: after
    [start_authentication], [exchange_code_for_token],
    [refresh_access_token], [get_current_track] and [np_command_cb],
    whatever the network answers, the client has the identity it had (and
    an unset [spotify] stays unset). *)
Theorem client_identity_is_kept :
  stays same_client start_authentication
  /\ (forall code, stays same_client (exchange_code_for_token code))
  /\ stays same_client refresh_access_token
  /\ stays same_client get_current_track
  /\ stays same_spotify np_command_cb.
Proof.
  split; [exact same_client_start_authentication|].
  split; [exact same_client_exchange_code_for_token|].
  split; [exact same_client_refresh_access_token|].
  split; [exact same_client_get_current_track|].
  unfold np_command_cb.
  apply (stays_bind _ same_spotify_trans); [|intros; apply (stays_ret _ same_spotify_refl)].
  apply (stays_try_except _ same_spotify_trans); [|intros; apply same_spotify_in_session].
  apply (stays_bind _ same_spotify_trans).
  - apply same_spotify_on_spotify, same_client_get_current_track.
  - intros track_data. destruct (negb (truthy track_data)); [apply same_spotify_in_session|].
    apply (stays_bind _ same_spotify_trans);
      [apply (stays_lift_result _ same_spotify_refl)|].
    intros [line|]; [|apply same_spotify_in_session].
    destruct (negb (String.eqb line "")); apply same_spotify_in_session.
Qed.




(** [refresh_access_token] returns false on every answer other than 200
    that carries a JSON object. *)
Lemma refresh_access_token_rejected_false (c : client) (w : world) (r : response) (d : dict) :
  network w (sent w) = Reply r -> status_code r <> 200 -> payload r = Json (JObj d) ->
  fst (refresh_access_token (c, w)) = Ok false.
Proof.
  intros Hnet Hstatus Hbody.
  rewrite (refresh_access_token_rejected c w r d Hnet Hstatus Hbody). cbv zeta.
  destruct (json_is_str "invalid_grant" (dict_get_or d "error" JNull)); [|reflexivity].
  unfold start_authentication, webbrowser_open. run_monad.
  destruct (browser w); reflexivity.
Qed.

(** The requests of a run of [refresh_access_token]. *)
Lemma refresh_access_token_requests (c : client) (w : world) :
  exists rest,
    trace (snd (snd (refresh_access_token (c, w))))
    = (trace w ++ Called RefreshAccessToken
         :: Posted (RefreshToken (refresh_token c)) (client_id c) (client_secret c) :: rest)%list
    /\ forallb no_request rest = true.
Proof.
  unfold refresh_access_token.
  unfold bind at 1 2. unfold in_world at 1, emit at 1, self_get at 1. cbn [fst snd].
  match goal with
  | |- context [bind (requests_post ?g) ?k] =>
      destruct (adds_after_post no_request g k) with
        (c := c) (w := set_trace (trace w ++ [Called RefreshAccessToken]) w)
        as (rest & E & F)
  end.
  { intros r.
    quiet;
      try (apply adds_only_time_time);
      try (apply adds_only_save_refresh_token; reflexivity);
      try (apply adds_only_start_authentication; reflexivity). }
  exists rest. split; [|exact F].
  rewrite E. cbn [trace set_trace]. rewrite <- app_assoc. reflexivity.
Qed.

(** The start of [get_current_track] when the token has to be refreshed. *)
Lemma get_current_track_refreshing (c : client) (w : world) :
  needs_refresh c w ->
  exists w0,
    get_current_track (c, w)
    = (refreshed <- refresh_access_token ;;
       if negb refreshed then ret JNull else fetch_current_track) (c, w0)
    /\ trace w0 = (trace w ++ [Called GetCurrentTrack])%list
    /\ network w0 = network w /\ sent w0 = sent w /\ clock w0 = clock w
    /\ same_files w w0.
Proof.
  intros Hneeds. destruct (truthy (access_token c)) eqn:Htok.
  - destruct Hneeds as [Hno|Hstale]; [congruence|].
    eexists. split; [apply get_current_track_stale; assumption|].
    cbn. unfold same_files. auto 10.
  - eexists. split; [apply get_current_track_without_token; assumption|].
    cbn. unfold same_files. auto 10.
Qed.

(** X14. No retry: a run of [refresh_access_token] makes exactly one
    request, whatever the answer.  It is the POST that carries the stored
    refresh token with client_id and client_secret, and it comes first. *)
Theorem refresh_access_token_one_request (c : client) (w : world) :
  exists rest,
    events_since w (snd (snd (refresh_access_token (c, w))))
    = Called RefreshAccessToken
        :: Posted (RefreshToken (refresh_token c)) (client_id c) (client_secret c) :: rest
    /\ posts rest = 0%nat /\ fetches rest = 0%nat.
Proof.
  destruct (refresh_access_token_requests c w) as (rest & E & F).
  exists rest. split; [|split; [apply posts_none|apply fetches_none]; exact F].
  apply events_since_app. exact E.
Qed.

Lemma posts_app (l l' : list event) : posts (l ++ l')%list = (posts l + posts l')%nat.
Proof. unfold posts. rewrite filter_app, length_app. reflexivity. Qed.




(** X16. When the token has to be refreshed and the refresh is rejected
    (an answer other than 200 with a JSON object), [get_current_track]
    returns absent without fetching: one POST, no GET. *)
Theorem get_current_track_gives_up_after_rejected_refresh
        (c : client) (w : world) (r : response) (d : dict) :
  needs_refresh c w ->
  network w (sent w) = Reply r -> status_code r <> 200 -> payload r = Json (JObj d) ->
  let out := get_current_track (c, w) in
  let news := events_since w (snd (snd out)) in
  fst out = Ok JNull /\ posts news = 1%nat /\ fetches news = 0%nat.
Proof.
  intros Hneeds Hnet Hstatus Hbody. cbv zeta.
  destruct (get_current_track_refreshing c w Hneeds)
    as (w0 & -> & Htrace & Hnetwork & Hsent & _ & _).
  rewrite <- Hnetwork, <- Hsent in Hnet.
  pose proof (refresh_access_token_rejected_false c w0 r d Hnet Hstatus Hbody) as Hfalse.
  destruct (refresh_access_token_requests c w0) as (rest & E & F).
  unfold bind. destruct (refresh_access_token (c, w0)) as [res s1]. cbn [fst snd] in *.
  subst res. cbn [negb ret fst snd].
  split; [reflexivity|].
  rewrite (events_since_app w _
             ([Called GetCurrentTrack; Called RefreshAccessToken;
               Posted (RefreshToken (refresh_token c)) (client_id c) (client_secret c)]
              ++ rest))
    by (rewrite E, Htrace, <- app_assoc; reflexivity).
  rewrite posts_app, fetches_app, (posts_none _ F), (fetches_none _ F). split; reflexivity.
Qed.

Lemma get_current_track_gives_up_after_rejected_refresh_witness :
  let c := new_client (JStr "id") (JStr "secret") (JStr "old") in
  let w := world_at 2000 (always (reply 400 (Json (JObj invalid_grant_body)))) NoFile in
  let out := get_current_track (c, w) in
  let news := events_since w (snd (snd out)) in
  fst out = Ok JNull /\ posts news = 1%nat /\ fetches news = 0%nat.
Proof.
  apply (get_current_track_gives_up_after_rejected_refresh
           (new_client (JStr "id") (JStr "secret") (JStr "old"))
           (world_at 2000 (always (reply 400 (Json (JObj invalid_grant_body)))) NoFile)
           {| status_code := 400; payload := Json (JObj invalid_grant_body) |}
           invalid_grant_body).
  - left. reflexivity.
  - reflexivity.
  - cbn. lia.
  - reflexivity.
Defined.







(** *** [exchange_code_for_token] and [start_authentication] *)

(** X19. [exchange_code_for_token] returns false on every answer other
    than 200, whatever its body (it is printed, not parsed): the client and
    both files are as before, and the only request is the POST that carries
    the code. *)
Theorem exchange_code_for_token_rejected
        (code : json) (c : client) (w : world) (r : response) :
  network w (sent w) = Reply r -> status_code r <> 200 ->
  let out := exchange_code_for_token code (c, w) in
  fst out = Ok false
  /\ fst (snd out) = c
  /\ same_files w (snd (snd out))
  /\ events_since w (snd (snd out))
     = [Called ExchangeCodeForToken;
        Posted (AuthorizationCode code) (client_id c) (client_secret c);
        Printed (ErrorGettingToken (payload r))].
Proof.
  intros Hnet Hstatus. apply Z.eqb_neq in Hstatus. cbv zeta.
  unfold exchange_code_for_token, same_files. run_monad.
  rewrite Hnet. cbn. rewrite Hstatus. cbn.
  repeat split. apply events_since_app. cbn. rewrite <- !app_assoc. reflexivity.
Qed.

Lemma exchange_code_for_token_rejected_witness :
  let c := new_client (JStr "id") (JStr "secret") (JStr "old") in
  let w := world_at 2000 (always (reply 502 (NotJson "Bad Gateway"))) NoFile in
  let out := exchange_code_for_token (JStr "code") (c, w) in
  fst out = Ok false
  /\ fst (snd out) = c
  /\ same_files w (snd (snd out))
  /\ events_since w (snd (snd out))
     = [Called ExchangeCodeForToken;
        Posted (AuthorizationCode (JStr "code")) (client_id c) (client_secret c);
        Printed (ErrorGettingToken (NotJson "Bad Gateway"))].
Proof.
  apply (exchange_code_for_token_rejected
           (JStr "code") (new_client (JStr "id") (JStr "secret") (JStr "old"))
           (world_at 2000 (always (reply 502 (NotJson "Bad Gateway"))) NoFile)
           {| status_code := 502; payload := NotJson "Bad Gateway" |}).
  - reflexivity.
  - cbn. lia.
Defined.




(** X21. [start_authentication] never raises, whatever [webbrowser.open]
    does; it changes nothing but the trace, sends no request, and prints the
    address before it tries the browser.  The value [webbrowser.open]
    returns is not looked at: a browser that could not be opened, for which
    it returns False, is not reported, and the line about the browser is
    printed only when the call raises. *)
Theorem start_authentication_only_prompts (c : client) (w : world) :
  let out := start_authentication (c, w) in
  fst out = Ok tt
  /\ fst (snd out) = c
  /\ same_files w (snd (snd out))
  /\ sent (snd (snd out)) = sent w
  /\ events_since w (snd (snd out))
     = ([Called StartAuthentication; Printed (PleaseVisit (client_id c));
         Printed AfterAuthorization; Browser (client_id c)]
        ++ match browser w with
           | BrowserRaises _ => [Printed CouldNotOpenBrowser]
           | _ => []
           end)%list.
Proof.
  cbv zeta. unfold start_authentication, webbrowser_open, same_files. run_monad.
  destruct (browser w); cbn; repeat split;
    apply events_since_app; cbn; rewrite <- ?app_assoc; reflexivity.
Qed.

(** ** The command handler *)

Lemma said_app (l l' : list event) : said (l ++ l')%list = (said l ++ said l')%list.
Proof. unfold said. apply flat_map_app. Qed.

Lemma said_none (l : list event) : forallb not_said l = true -> said l = [].
Proof.
  induction l as [|e l IH]; [reflexivity|].
  cbn [forallb]. intros H. apply andb_prop in H as [He Hl]. specialize (IH Hl).
  unfold said in *. cbn [flat_map]. rewrite IH.
  destruct e; try reflexivity. discriminate.
Qed.

(** The run of a fetch: its value, and what it leaves. *)
Lemma fetch_current_track_run (c : client) (w : world) :
  exists prints,
    fetch_current_track (c, w)
    = (Ok (fetched (network w (sent w))),
       (c, set_sent (S (sent w))
             (set_trace (trace w ++ Fetched (access_token c) :: prints) w)))
    /\ said prints = []
    /\ (truthy (fetched (network w (sent w))) = true -> prints = []).
Proof.
  unfold fetch_current_track, fetched. run_monad.
  destruct (network w (sent w)) as [r|]; cbn.
  - destruct (status_code r =? 200); cbn.
    + destruct (payload r); cbn.
      * exists [Printed (NetworkError JSONDecodeError)]. rewrite <- app_assoc.
        split; [reflexivity|]. split; [reflexivity|discriminate].
      * exists []. auto.
    + destruct (status_code r =? 204); cbn.
      * exists []. auto.
      * exists [Printed (ApiError (payload r))]. rewrite <- app_assoc.
        split; [reflexivity|]. split; [reflexivity|discriminate].
  - exists [Printed (NetworkError RequestException)]. rewrite <- app_assoc.
    split; [reflexivity|]. split; [reflexivity|discriminate].
Qed.

(** The last step of a run of the handler: one more event on the trace. *)
Ltac handler_end :=
  unfold in_session, debug_print, emit, ret;
  cbn [fst snd trace set_trace set_sent set_ticks];
  split; [reflexivity|];
  apply events_since_app; cbn [trace set_trace set_sent set_ticks];
  rewrite <- ?app_assoc; reflexivity.

(** The run of the handler when the token held needs no refresh: the
    fetch, what the fetch printed, and one last event. *)
Lemma np_command_cb_fresh (c : client) (w : world) :
  truthy (access_token c) = true -> clock w (ticks w) <= expires_at c - 60 ->
  let v := fetched (network w (sent w)) in
  let out := np_command_cb (Some c, w) in
  exists prints,
    said prints = [] /\ (truthy v = true -> prints = [])
    /\ fst out = Ok WEECHAT_RC_OK
    /\ events_since w (snd (snd out))
       = (Called GetCurrentTrack :: Fetched (access_token c) :: prints
          ++ [if negb (truthy v) then Printed CouldntGetCurrentTrack
              else match format_track_info v with
                   | Ok (Some line) => Said line
                   | Ok None => Printed NoTrackPlaying
                   | Raise e => Printed (ErrorInNpCommand e)
                   end])%list.
Proof.
  intros Htok Hnow. cbv zeta.
  destruct (fetch_current_track_run
              c (set_ticks (S (ticks w)) (set_trace (trace w ++ [Called GetCurrentTrack]) w)))
    as (prints & Hrun & Hsaid & Hnone).
  cbn [network sent set_ticks set_trace trace] in Hrun, Hnone.
  exists prints. split; [exact Hsaid|]. split; [exact Hnone|].
  assert (Hon : on_spotify get_current_track (Some c, w)
                = (Ok (fetched (network w (sent w))),
                   (Some c,
                    set_sent (S (sent w))
                      (set_trace
                         ((trace w ++ [Called GetCurrentTrack]) ++
                          Fetched (access_token c) :: prints)
                         (set_ticks (S (ticks w))
                            (set_trace (trace w ++ [Called GetCurrentTrack]) w)))))).
  { unfold on_spotify. cbn [fst snd].
    rewrite (get_current_track_fresh c w Htok Hnow), Hrun. reflexivity. }
  unfold np_command_cb, try_except, bind. rewrite Hon.
  destruct (truthy (fetched (network w (sent w)))) eqn:Hv; cbn [negb].
  - unfold lift_result.
    destruct (format_track_info (fetched (network w (sent w)))) as [[line|]|e] eqn:Hformat.
    + destruct (format_track_info_line _ _ Hformat) as (_ & Hline & _).
      destruct (String.eqb_spec line ""); [contradiction|]. cbn [negb].
      handler_end.
    + handler_end.
    + handler_end.
  - handler_end.
Qed.

(** X22. With a token that needs no refresh and a 200 answer that holds a
    playing track, [np_command_cb] makes the one fetch, says the formatted
    line in the buffer, once, and prints nothing. *)
Theorem np_command_cb_says_the_line
        (c : client) (w : world) (r : response) (d : dict) (t : track) :
  truthy (access_token c) = true -> clock w (ticks w) <= expires_at c - 60 ->
  network w (sent w) = Reply r -> status_code r = 200 -> payload r = Json (JObj d) ->
  d <> [] -> playing d = true -> read_track d = Some t ->
  let out := np_command_cb (Some c, w) in
  fst out = Ok WEECHAT_RC_OK
  /\ events_since w (snd (snd out))
     = [Called GetCurrentTrack; Fetched (access_token c); Said (now_playing t)].
Proof.
  intros Htok Hnow Hnet Hstatus Hbody Hne Hplay Hread. cbv zeta.
  destruct (np_command_cb_fresh c w Htok Hnow) as (prints & _ & Hnone & Hok & Hevents).
  assert (Hv : fetched (network w (sent w)) = JObj d).
  { unfold fetched. rewrite Hnet, Hstatus, Hbody. reflexivity. }
  rewrite Hv in *.
  assert (Htruthy : truthy (JObj d) = true) by (destruct d; [congruence|reflexivity]).
  rewrite Htruthy, (format_track_info_playing d t Hne Hplay Hread) in Hevents.
  rewrite (Hnone Htruthy) in Hevents. split; [exact Hok|exact Hevents].
Qed.

Lemma np_command_cb_says_the_line_witness :
  exists t,
    let c := client_with_token 5000 in
    let w := world_at 1000 (always (reply 200 (Json (JObj no_url_example)))) NoFile in
    let out := np_command_cb (Some c, w) in
    fst out = Ok WEECHAT_RC_OK
    /\ events_since w (snd (snd out))
       = [Called GetCurrentTrack; Fetched (access_token c); Said (now_playing t)].
Proof.
  eexists.
  apply (np_command_cb_says_the_line
           (client_with_token 5000)
           (world_at 1000 (always (reply 200 (Json (JObj no_url_example)))) NoFile)
           {| status_code := 200; payload := Json (JObj no_url_example) |}
           no_url_example);
    [reflexivity|cbn; lia|reflexivity|reflexivity|reflexivity|discriminate
    |reflexivity|reflexivity].
Defined.

(** X23. With a token that needs no refresh, an answer 204, or a 200
    answer whose payload has is_playing false, makes [np_command_cb] print
    "No track currently playing" and say nothing. *)
Theorem np_command_cb_nothing_playing
        (c : client) (w : world) (r : response) :
  truthy (access_token c) = true -> clock w (ticks w) <= expires_at c - 60 ->
  network w (sent w) = Reply r ->
  (status_code r = 204
   \/ exists d, status_code r = 200 /\ payload r = Json (JObj d)
                /\ d <> [] /\ playing d = false) ->
  let out := np_command_cb (Some c, w) in
  fst out = Ok WEECHAT_RC_OK
  /\ events_since w (snd (snd out))
     = [Called GetCurrentTrack; Fetched (access_token c); Printed NoTrackPlaying].
Proof.
  intros Htok Hnow Hnet Hcase. cbv zeta.
  destruct (np_command_cb_fresh c w Htok Hnow) as (prints & _ & Hnone & Hok & Hevents).
  split; [exact Hok|].
  destruct Hcase as [H204|(d & H200 & Hbody & Hne & Hplay)].
  - assert (Hv : fetched (network w (sent w)) = JObj [("is_playing", JBool false)]).
    { unfold fetched. rewrite Hnet, H204. reflexivity. }
    rewrite Hv in *. rewrite (Hnone eq_refl) in Hevents. exact Hevents.
  - assert (Hv : fetched (network w (sent w)) = JObj d).
    { unfold fetched. rewrite Hnet, H200, Hbody. reflexivity. }
    rewrite Hv in *.
    assert (Htruthy : truthy (JObj d) = true) by (destruct d; [congruence|reflexivity]).
    rewrite (Hnone Htruthy), Htruthy in Hevents.
    assert (Hformat : format_track_info (JObj d) = Ok None).
    { unfold format_track_info. rewrite Htruthy. cbn [negb py_get rbind].
      unfold playing in Hplay. rewrite Hplay. reflexivity. }
    rewrite Hformat in Hevents. exact Hevents.
Qed.

Lemma np_command_cb_nothing_playing_witness :
  let c := client_with_token 5000 in
  let w := world_at 1000 (always (reply 204 (NotJson ""))) NoFile in
  let out := np_command_cb (Some c, w) in
  fst out = Ok WEECHAT_RC_OK
  /\ events_since w (snd (snd out))
     = [Called GetCurrentTrack; Fetched (access_token c); Printed NoTrackPlaying].
Proof.
  apply (np_command_cb_nothing_playing
           (client_with_token 5000)
           (world_at 1000 (always (reply 204 (NotJson ""))) NoFile)
           {| status_code := 204; payload := NotJson "" |});
    [reflexivity|cbn; lia|reflexivity|left; reflexivity].
Defined.

(** X24. With a token that needs no refresh, whenever the fetch gives
    nothing usable (the request fails, the status is neither 200 nor 204,
    the 200 body is not JSON, or it is an empty or null JSON value),
    [np_command_cb] says nothing and ends by printing "Couldn't get current
    track". *)
Theorem np_command_cb_could_not_get_track (c : client) (w : world) :
  truthy (access_token c) = true -> clock w (ticks w) <= expires_at c - 60 ->
  (network w (sent w) = Fails
   \/ exists r, network w (sent w) = Reply r
                /\ ((status_code r <> 200 /\ status_code r <> 204)
                    \/ (status_code r = 200
                        /\ forall j, payload r = Json j -> truthy j = false))) ->
  let out := np_command_cb (Some c, w) in
  let news := events_since w (snd (snd out)) in
  fst out = Ok WEECHAT_RC_OK
  /\ said news = []
  /\ exists prints,
       news = (Called GetCurrentTrack :: Fetched (access_token c) :: prints
               ++ [Printed CouldntGetCurrentTrack])%list.
Proof.
  intros Htok Hnow Hcase. cbv zeta.
  destruct (np_command_cb_fresh c w Htok Hnow) as (prints & Hsaid & _ & Hok & Hevents).
  assert (Hv : truthy (fetched (network w (sent w))) = false).
  { unfold fetched. destruct Hcase as [->|(r & -> & [[H200 H204]|[H200 Hbody]])].
    - reflexivity.
    - apply Z.eqb_neq in H200, H204. rewrite H200, H204. reflexivity.
    - rewrite H200. cbn. destruct (payload r) as [text|j]; [reflexivity|].
      apply Hbody. reflexivity. }
  rewrite Hv in Hevents. cbn [negb] in Hevents.
  split; [exact Hok|]. rewrite Hevents. split; [|exists prints; reflexivity].
  change (Called GetCurrentTrack :: Fetched (access_token c)
            :: prints ++ [Printed CouldntGetCurrentTrack])%list
    with ([Called GetCurrentTrack; Fetched (access_token c)]
            ++ prints ++ [Printed CouldntGetCurrentTrack])%list.
  rewrite !said_app, Hsaid. reflexivity.
Qed.

Lemma np_command_cb_could_not_get_track_witness :
  let c := client_with_token 5000 in
  let w := world_at 1000 (always (reply 200 (Json (JObj [])))) NoFile in
  let out := np_command_cb (Some c, w) in
  let news := events_since w (snd (snd out)) in
  fst out = Ok WEECHAT_RC_OK
  /\ said news = []
  /\ exists prints,
       news = (Called GetCurrentTrack :: Fetched (access_token c) :: prints
               ++ [Printed CouldntGetCurrentTrack])%list.
Proof.
  apply (np_command_cb_could_not_get_track
           (client_with_token 5000)
           (world_at 1000 (always (reply 200 (Json (JObj [])))) NoFile));
    [reflexivity|cbn; lia|].
  right. exists {| status_code := 200; payload := Json (JObj []) |}.
  split; [reflexivity|]. right. split; [reflexivity|].
  intros j [= <-]. reflexivity.
Defined.

Lemma adds_only_on_spotify {A} (P : event -> bool) (m : M state A) :
  adds_only P m -> adds_only P (on_spotify m).
Proof.
  intros Hm [[c|] w]; unfold on_spotify; cbn [fst snd].
  - destruct (Hm (c, w)) as (news & E & F). exists news.
    destruct (m (c, w)) as [r [c' w']]. split; [exact E|exact F].
  - exists []. cbn. rewrite app_nil_r. auto.
Qed.

Lemma not_said_refresh_access_token : adds_only not_said refresh_access_token.
Proof.
  unfold refresh_access_token.
  quiet;
    try (apply adds_only_requests_post; reflexivity);
    try (apply adds_only_time_time);
    try (apply adds_only_save_refresh_token; reflexivity);
    try (apply adds_only_start_authentication; reflexivity).
Qed.

Lemma not_said_get_current_track : adds_only not_said get_current_track.
Proof.
  unfold get_current_track, token_needs_refresh.
  quiet;
    try (apply adds_only_time_time);
    try (apply not_said_refresh_access_token);
    try (apply adds_only_fetch_current_track; reflexivity).
Qed.

(** X25. Whatever the state and the answers, one run of [np_command_cb]
    says at most one line in the buffer, and a line it says is a formatted
    one: it starts with the note sign and "Now playing: ". *)
Theorem np_command_cb_says_at_most_one_line (g : session) :
  let news := events_since (snd g) (snd (snd (np_command_cb g))) in
  said news = []
  \/ exists line,
       said news = [line] /\ prefix (note_prefix ++ "Now playing: ") line = true.
Proof.
  cbv zeta.
  destruct (adds_only_on_spotify not_said get_current_track not_said_get_current_track g)
    as (news & E & F).
  unfold trace_of, session_traced in E.
  assert (Hprint : forall l,
             said (events_since (snd g)
                     (set_trace (trace (snd (snd (on_spotify get_current_track g)))
                                 ++ [Printed l])
                                (snd (snd (on_spotify get_current_track g))))) = []).
  { intros l. rewrite (events_since_app _ _ (news ++ [Printed l]));
      [|cbn [trace set_trace]; rewrite E, <- app_assoc; reflexivity].
    rewrite said_app, (said_none _ F). reflexivity. }
  unfold np_command_cb, try_except, bind.
  destruct (on_spotify get_current_track g) as [[v|e] [spotify w1]]; cbn [fst snd] in *.
  - destruct (truthy v); cbn [negb].
    + unfold lift_result.
      destruct (format_track_info v) as [[line|]|e] eqn:Hformat.
      * destruct (format_track_info_line _ _ Hformat) as (Hprefix & Hline & _).
        destruct (String.eqb_spec line ""); [contradiction|]. cbn [negb].
        unfold in_session, emit, ret. cbn [fst snd].
        right. exists line. split; [|exact Hprefix].
        rewrite (events_since_app _ _ (news ++ [Said line]));
          [|cbn [trace set_trace]; rewrite E, <- app_assoc; reflexivity].
        rewrite said_app, (said_none _ F). reflexivity.
      * unfold in_session, debug_print, emit, ret. cbn [fst snd]. left. apply Hprint.
      * unfold in_session, debug_print, emit, ret. cbn [fst snd]. left. apply Hprint.
    + unfold in_session, debug_print, emit, ret. cbn [fst snd]. left. apply Hprint.
  - unfold in_session, debug_print, emit, ret. cbn [fst snd]. left. apply Hprint.
Qed.

(** ** Failures, up to the handler *)

(** A failure of the refresh leaves [get_current_track] as it left
    [refresh_access_token]. *)
Lemma get_current_track_raises_with_refresh (c : client) (w : world) (e : exn) :
  needs_refresh c w ->
  (forall w0, network w0 = network w -> sent w0 = sent w ->
              fst (refresh_access_token (c, w0)) = Raise e) ->
  fst (get_current_track (c, w)) = Raise e.
Proof.
  intros Hneeds Hraise.
  destruct (get_current_track_refreshing c w Hneeds)
    as (w0 & -> & _ & Hnetwork & Hsent & _ & _).
  specialize (Hraise w0 Hnetwork Hsent). unfold bind.
  destruct (refresh_access_token (c, w0)) as [[b|e'] s']; cbn [fst] in Hraise |- *.
  - discriminate.
  - injection Hraise as ->. reflexivity.
Qed.

(** What is raised below the handler is printed by it, after everything
    else. *)
Lemma np_command_cb_logs (g : session) (e : exn) :
  let below := on_spotify get_current_track g in
  (fst below = Raise e
   \/ exists v, fst below = Ok v /\ truthy v = true /\ format_track_info v = Raise e) ->
  events_since (snd g) (snd (snd (np_command_cb g)))
  = (events_since (snd g) (snd (snd below)) ++ [Printed (ErrorInNpCommand e)])%list.
Proof.
  cbv zeta. intros Hbelow.
  destruct (adds_only_on_spotify not_said get_current_track not_said_get_current_track g)
    as (news & E & _).
  unfold trace_of, session_traced in E.
  unfold np_command_cb, try_except, bind.
  destruct (on_spotify get_current_track g) as [[v|e'] [spotify w1]]; cbn [fst snd] in *.
  - destruct Hbelow as [Hraise|(v' & Hv & Htruthy & Hformat)]; [discriminate|].
    injection Hv as <-. rewrite Htruthy. cbn [negb]. unfold lift_result. rewrite Hformat.
    unfold in_session, debug_print, emit, ret. cbn [fst snd].
    rewrite (events_since_app _ _ (news ++ [Printed (ErrorInNpCommand e)]))
      by (cbn [trace set_trace]; rewrite E, <- app_assoc; reflexivity).
    rewrite (events_since_app _ _ news E). reflexivity.
  - destruct Hbelow as [Hraise|(v' & Hv & _)]; [|discriminate].
    injection Hraise as ->.
    unfold in_session, debug_print, emit, ret. cbn [fst snd].
    rewrite (events_since_app _ _ (news ++ [Printed (ErrorInNpCommand e)]))
      by (cbn [trace set_trace]; rewrite E, <- app_assoc; reflexivity).
    rewrite (events_since_app _ _ news E). reflexivity.
Qed.

(** C5, as the code has it.  [refresh_access_token()] returns false on
    every answer other than 200 that carries a JSON object, but a network
    error or a body that is not JSON is raised to its caller, and through
    [get_current_track()] whenever that one has to refresh, for want of a
    token or because the token is stale.  With a token that needs no
    refresh, [get_current_track()] never raises: a network error, a 200
    answer that is not JSON and every status other than 200 and 204 give
    absent.  The command handler [np_command_cb] always returns
    WEECHAT_RC_OK, and whatever is raised below it, by the call of
    [get_current_track] or by [format_track_info], it prints as the last
    line of the run. *)
Theorem failures_end_in_the_command_handler (c : client) (w : world) :
  (forall r d, network w (sent w) = Reply r -> status_code r <> 200 ->
               payload r = Json (JObj d) ->
               fst (refresh_access_token (c, w)) = Ok false)
  /\ (network w (sent w) = Fails ->
      fst (refresh_access_token (c, w)) = Raise RequestException
      /\ (needs_refresh c w ->
          fst (get_current_track (c, w)) = Raise RequestException))
  /\ (forall r text, network w (sent w) = Reply r -> payload r = NotJson text ->
                     fst (refresh_access_token (c, w)) = Raise JSONDecodeError
                     /\ (needs_refresh c w ->
                         fst (get_current_track (c, w)) = Raise JSONDecodeError))
  /\ (truthy (access_token c) = true -> clock w (ticks w) <= expires_at c - 60 ->
      exists v,
        fst (get_current_track (c, w)) = Ok v
        /\ (network w (sent w) = Fails -> v = JNull)
        /\ (forall r text, network w (sent w) = Reply r -> status_code r = 200 ->
                           payload r = NotJson text -> v = JNull)
        /\ (forall r, network w (sent w) = Reply r -> status_code r <> 200 ->
                      status_code r <> 204 -> v = JNull))
  /\ (forall spotify : option client,
        let below := on_spotify get_current_track (spotify, w) in
        let out := np_command_cb (spotify, w) in
        fst out = Ok WEECHAT_RC_OK
        /\ forall e,
             (fst below = Raise e
              \/ exists v, fst below = Ok v /\ truthy v = true
                           /\ format_track_info v = Raise e) ->
             events_since w (snd (snd out))
             = (events_since w (snd (snd below)) ++ [Printed (ErrorInNpCommand e)])%list).
Proof.
  split.
  { intros r d. apply refresh_access_token_rejected_false. }
  split.
  { intros Hnet. split; [apply refresh_access_token_network_failure, Hnet|].
    intros Hneeds. apply get_current_track_raises_with_refresh; [exact Hneeds|].
    intros w0 Hnetwork Hsent. apply refresh_access_token_network_failure.
    rewrite Hnetwork, Hsent. exact Hnet. }
  split.
  { intros r text Hnet Hbody.
    split; [apply (refresh_access_token_not_json c w r text Hnet Hbody)|].
    intros Hneeds. apply get_current_track_raises_with_refresh; [exact Hneeds|].
    intros w0 Hnetwork Hsent. apply (refresh_access_token_not_json c w0 r text); [|exact Hbody].
    rewrite Hnetwork, Hsent. exact Hnet. }
  split.
  { intros Htok Hnow. rewrite get_current_track_fresh by assumption.
    rewrite fetch_current_track_result. cbn [network sent set_ticks set_trace].
    destruct (network w (sent w)) as [r|].
    - destruct (status_code r =? 200) eqn:E200; [destruct (payload r) as [text|j] eqn:Hbody|].
      + exists JNull. repeat split; auto.
      + exists j. split; [reflexivity|]. split; [discriminate|]. split.
        * intros r' text Hr' _ Hbody'. injection Hr' as <-. congruence.
        * intros r' Hr' Hno _. injection Hr' as <-. apply Z.eqb_eq in E200. contradiction.
      + destruct (status_code r =? 204) eqn:E204.
        * exists (JObj [("is_playing", JBool false)]). split; [reflexivity|].
          split; [discriminate|]. split.
          -- intros r' text Hr' H200 _. injection Hr' as <-.
             apply Z.eqb_neq in E200. contradiction.
          -- intros r' Hr' _ Hno. injection Hr' as <-. apply Z.eqb_eq in E204. contradiction.
        * exists JNull. repeat split; auto.
    - exists JNull. repeat split; auto. }
  intros spotify. cbv zeta. split.
  - unfold np_command_cb. apply try_except_print_returns.
  - intros e. apply (np_command_cb_logs (spotify, w) e).
Qed.

Lemma failures_end_in_the_command_handler_witness :
  let c := new_client (JStr "id") (JStr "secret") (JStr "old") in
  let below := on_spotify get_current_track (Some c, network_down) in
  let out := np_command_cb (Some c, network_down) in
  fst (refresh_access_token (c, network_down)) = Raise RequestException
  /\ fst (get_current_track (c, network_down)) = Raise RequestException
  /\ fst out = Ok WEECHAT_RC_OK
  /\ events_since network_down (snd (snd out))
     = (events_since network_down (snd (snd below))
        ++ [Printed (ErrorInNpCommand RequestException)])%list.
Proof.
  cbv zeta.
  destruct (failures_end_in_the_command_handler
              (new_client (JStr "id") (JStr "secret") (JStr "old")) network_down)
    as (_ & Hdown & _ & _ & Hcb).
  destruct (Hdown eq_refl) as [Hrefresh Htrack].
  destruct (Hcb (Some (new_client (JStr "id") (JStr "secret") (JStr "old")))) as [Hreturn Hlog].
  split; [exact Hrefresh|]. split; [exact (Htrack (or_introl eq_refl))|].
  split; [exact Hreturn|]. apply Hlog. left. reflexivity.
Defined.

(** ** Start-up *)

Lemma np_command_cb_without_client (w : world) :
  np_command_cb (None, w)
  = (Ok WEECHAT_RC_OK,
     (None, set_trace (trace w ++ [Printed (ErrorInNpCommand AttributeError)]) w)).
Proof. reflexivity. Qed.

(** X26. When the credentials cannot be loaded, the main block sends
    nothing, hooks no command and leaves [spotify] unset: it prints the
    loading line, the error of [load_credentials], the failure and the hint.
    A later [np_command_cb] then only prints the AttributeError it caught,
    without any request. *)
Theorem script_main_without_credentials (w : world) (e : py_exn) :
  fst (load_credentials w) = Raised e ->
  script_main true w
  = ((None, w),
     [BootPrinted LoadingScript; BootPrinted (ErrorLoadingCredentials e);
      BootPrinted (InitializationFailed e); BootPrinted PleaseCheckCredentials])
  /\ let later := np_command_cb (fst (script_main true w)) in
     fst later = Ok WEECHAT_RC_OK
     /\ events_since w (snd (snd later)) = [Printed (ErrorInNpCommand AttributeError)]
     /\ sent (snd (snd later)) = sent w.
Proof.
  intros Hload.
  pose proof (load_credentials_outcome w) as Hout.
  assert (Hmain : script_main true w
                  = ((None, w),
                     [BootPrinted LoadingScript; BootPrinted (ErrorLoadingCredentials e);
                      BootPrinted (InitializationFailed e);
                      BootPrinted PleaseCheckCredentials])).
  { unfold script_main, spotify_client. cbn [negb].
    destruct (load_credentials w) as [[[[cid csecret] rtoken]|e'] printed];
      cbn [fst] in Hload; [discriminate|].
    injection Hload as ->. rewrite Hout. reflexivity. }
  split; [exact Hmain|]. rewrite Hmain. cbn [fst]. rewrite np_command_cb_without_client.
  cbn [fst snd sent set_trace]. split; [reflexivity|]. split; [|reflexivity].
  apply events_since_app. reflexivity.
Qed.

Lemma script_main_without_credentials_witness :
  script_main true (world_at 0 (always Fails) NoFile)
  = ((None, world_at 0 (always Fails) NoFile),
     [BootPrinted LoadingScript; BootPrinted (ErrorLoadingCredentials (Std OSError));
      BootPrinted (InitializationFailed (Std OSError)); BootPrinted PleaseCheckCredentials]).
Proof.
  apply (script_main_without_credentials (world_at 0 (always Fails) NoFile) (Std OSError)).
  reflexivity.
Defined.

Lemma no_hook_in_method_events (l : list event) : filter is_hook (map MethodEvent l) = [].
Proof. induction l as [|e l IH]; [reflexivity|exact IH]. Qed.

(** X27. When the credentials are loaded, the main block hooks the command
    exactly once, before the first refresh, and leaves [spotify] set to a
    client with the loaded client_id and client_secret, whatever the refresh
    does, even when it raises; the refresh is the one POST of the block and
    it carries the loaded refresh token. *)
Theorem script_main_with_credentials (w : world) (cid csecret rtoken : json) :
  fst (load_credentials w) = Returned (cid, csecret, rtoken) ->
  let out := script_main true w in
  let news := events_since w (snd (fst out)) in
  (exists c, fst (fst out) = Some c /\ client_id c = cid /\ client_secret c = csecret)
  /\ posts news = 1%nat /\ fetches news = 0%nat
  /\ exists rest,
       snd out
       = ([BootPrinted LoadingScript; HookedCommand; BootPrinted ScriptLoaded;
           BootPrinted NpAvailable; MethodEvent (Called RefreshAccessToken);
           MethodEvent (Posted (RefreshToken rtoken) cid csecret)] ++ rest)%list
       /\ filter is_hook rest = [].
Proof.
  intros Hload. cbv zeta.
  pose proof (load_credentials_outcome w) as Hout.
  unfold script_main, spotify_client. cbn [negb].
  destruct (load_credentials w) as [[[[cid' csecret'] rtoken']|e'] printed];
    cbn [fst] in Hload; [|discriminate].
  injection Hload as -> -> ->. destruct Hout as (-> & _).
  set (c := new_client cid csecret rtoken).
  destruct (same_client_refresh_access_token (c, w)) as [Hid Hsecret].
  destruct (refresh_access_token_requests c w) as (rest & E & F).
  assert (Hnews : events_since w (snd (snd (refresh_access_token (c, w))))
                  = ([Called RefreshAccessToken; Posted (RefreshToken rtoken) cid csecret]
                     ++ rest)%list)
    by (apply events_since_app; exact E).
  cbv zeta. rewrite Hnews.
  assert (Hcount : posts ([Called RefreshAccessToken; Posted (RefreshToken rtoken) cid csecret]
                          ++ rest) = 1%nat
                   /\ fetches ([Called RefreshAccessToken;
                                Posted (RefreshToken rtoken) cid csecret] ++ rest) = 0%nat).
  { rewrite posts_app, fetches_app, (posts_none _ F), (fetches_none _ F).
    split; reflexivity. }
  cbn [fst] in Hid, Hsecret.
  destruct (fst (refresh_access_token (c, w))) as [[|]|e]; cbn [fst snd];
    rewrite Hnews;
    (split; [eexists; split; [reflexivity|split; [exact Hid|exact Hsecret]]|]);
    (split; [apply Hcount|]); (split; [apply Hcount|]).
  - exists (map MethodEvent rest). split; [reflexivity|apply no_hook_in_method_events].
  - exists (map MethodEvent rest ++ [BootPrinted InitialRefreshFailed])%list.
    split; [cbn; rewrite ?map_app, <- ?app_assoc; reflexivity|].
    rewrite filter_app, no_hook_in_method_events. reflexivity.
  - exists (map MethodEvent rest
            ++ [BootPrinted (InitializationFailed (Std e)); BootPrinted PleaseCheckCredentials])%list.
    split; [cbn; rewrite ?map_app, <- ?app_assoc; reflexivity|].
    rewrite filter_app, no_hook_in_method_events. reflexivity.
Qed.

Lemma script_main_with_credentials_witness :
  let w := world_at 0 (always Fails) (dumped (JObj stored_credentials)) in
  let out := script_main true w in
  let news := events_since w (snd (fst out)) in
  (exists c, fst (fst out) = Some c /\ client_id c = JStr "id" /\ client_secret c = JStr "secret")
  /\ posts news = 1%nat /\ fetches news = 0%nat
  /\ exists rest,
       snd out
       = ([BootPrinted LoadingScript; HookedCommand; BootPrinted ScriptLoaded;
           BootPrinted NpAvailable; MethodEvent (Called RefreshAccessToken);
           MethodEvent (Posted (RefreshToken (JStr "old")) (JStr "id") (JStr "secret"))]
          ++ rest)%list
       /\ filter is_hook rest = [].
Proof.
  apply (script_main_with_credentials
           (world_at 0 (always Fails) (dumped (JObj stored_credentials)))
           (JStr "id") (JStr "secret") (JStr "old")).
  reflexivity.
Defined.
